(** * Blink monitor (app.py): a shallow embedding and its properties

    The program is one Python script.  Its state is a handful of module
    globals mutated by the body of a [while True] loop; the only function
    with side effects outside these globals is [saveBlinkDataToFirebase].

    Conventions of the embedding:
    - Python [int] is [Z] (unbounded).
    - Clock readings, their differences and the window mean are carried as
      the exact rationals [Q] they denote.  Where a float feeds an integer
      the program shows or a rounded field it stores (lines 97, 186 and
      206-210), the arithmetic is binary64, round to nearest even, on the
      standard library's [spec_float] ([Module Float]).  The final rate of
      line 251 is evaluated on the exact rationals; it can differ from the
      binary64 result where the quotient is within rounding of an
      integer.
    - Globals are the record [Session]; console output, the cloud store and
      the wall clock are the rest of [World].
    - Code that can raise runs in the monad [M], whose result is either
      [Returned] or [Raised]; effects performed before a raise persist, as
      in Python.
    - Of the drawing calls only the values they put on the screen are kept
      ([Shown]); the camera, the detector, the clock and the keyboard are
      inputs of each iteration ([Frame]). *)

From Stdlib Require Import ZArith QArith Qround Qabs List String Bool Lia.
From Stdlib Require Import SpecFloat.
From Stdlib Require Lqa.
Import ListNotations.

#[local] Open Scope Z_scope.

(** ** Python helpers *)

Module Py.

(** [int(x)] on a float: truncation toward zero. *)
Definition int (x : Q) : Z := Z.quot (Qnum x) (Zpos (Qden x)).

(** [a < b] and [a >= b] on floats. *)
Definition ltb (a b : Q) : bool := negb (Qle_bool b a).
Definition geb (a b : Q) : bool := Qle_bool b a.

(** [max(a, b)]: the first argument unless the second is strictly larger. *)
Definition max (a b : Q) : Q := if ltb a b then b else a.

(** [round(x)] with no digits argument: nearest integer, ties to even. *)
Definition round (x : Q) : Z :=
  let f := Qfloor x in
  let r := (x - inject_Z f)%Q in
  if ltb r (1 # 2) then f
  else if ltb (1 # 2) r then f + 1
  else if Z.even f then f else f + 1.

(** [round(x, 2)] of an exact rational: its nearest two-decimal value. *)
Definition round2 (x : Q) : Q := (inject_Z (round (x * 100)) / 100)%Q.

(** [sum(l)] on a list of ints. *)
Definition sum (l : list Z) : Z := fold_left Z.add l 0.

(** [len(l)]. *)
Definition len {A} (l : list A) : Z := Z.of_nat (List.length l).

(** [l.pop(0)] as used for its effect on [l] only. *)
Definition pop0 {A} (l : list A) : list A := tl l.

(** Instances of [Exception] the script can meet: a float division by
    zero, [int] of a NaN ([ValueError]), [int] of an infinity or the
    conversion of too large an int to a float ([OverflowError]), and
    whatever the Firestore client raises.  Interrupts that are not
    subclasses of [Exception] (KeyboardInterrupt, SystemExit) are
    asynchronous and not part of the model. *)
Inductive Exception : Type :=
| ZeroDivisionError
| ValueError
| OverflowError
| StoreError (message : string).

End Py.

(** ** Results of code that can raise *)

Inductive outcome (A : Type) : Type :=
| Returned (a : A)
| Raised (e : Py.Exception).
Arguments Returned {A} a.
Arguments Raised {A} e.

(** Sequencing: the first raise ends the computation. *)
Definition and_then {A B} (o : outcome A) (k : A -> outcome B) : outcome B :=
  match o with
  | Returned a => k a
  | Raised e => Raised e
  end.

(** ** Binary64 *)

Module Float.

Definition t : Type := spec_float.

Definition prec : Z := 53.
Definition emax : Z := 1024.

(** The float nearest to a rational (ties to even): what a literal, an
    exactly evaluated subtraction of two floats, or the conversion of a
    small int denotes. *)
Definition of_Q (q : Q) : t :=
  match Qnum q with
  | 0 => S754_zero false
  | Zpos n =>
      SFdiv prec emax (S754_finite false n 0) (S754_finite false (Qden q) 0)
  | Zneg n =>
      SFdiv prec emax (S754_finite true n 0) (S754_finite false (Qden q) 0)
  end.

(** The rational a finite float denotes (0 for the others). *)
Definition to_Q (x : t) : Q :=
  match x with
  | S754_finite s m e =>
      let n := if s then Zneg m else Zpos m in
      match e with
      | 0 => n # 1
      | Zpos p => (n * Z.pow_pos 2 p) # 1
      | Zneg p => n # (Pos.pow 2 p)
      end
  | _ => 0%Q
  end.

(** The conversion of an int operand: [OverflowError] past the largest
    float. *)
Definition of_int (n : Z) : outcome t :=
  match binary_normalize prec emax n 0 false with
  | S754_infinity _ => Raised Py.OverflowError
  | x => Returned x
  end.

Definition is_zero (x : t) : bool :=
  match x with
  | S754_zero _ => true
  | _ => false
  end.

(** IEEE division and multiplication. *)
Definition fdiv (x y : t) : t := SFdiv prec emax x y.
Definition mul (x y : t) : t := SFmul prec emax x y.

(** [x / y]: Python raises on a zero divisor. *)
Definition div (x y : t) : outcome t :=
  if is_zero y then Raised Py.ZeroDivisionError else Returned (fdiv x y).

Definition ltb (x y : t) : bool := SFltb x y.
Definition leb (x y : t) : bool := SFleb x y.

(** [max(a, b)]: the first argument unless the second is strictly larger. *)
Definition max (a b : t) : t := if ltb a b then b else a.

(** [int(x)]: truncation toward zero of the value of a finite float. *)
Definition int (x : t) : outcome Z :=
  match x with
  | S754_nan => Raised Py.ValueError
  | S754_infinity _ => Raised Py.OverflowError
  | _ => Returned (Py.int (to_Q x))
  end.

(** The square root, correctly rounded. *)
Definition sqrt (x : t) : t := SFsqrt prec emax x.

(** [round(x, 2)]: the value of [x] rounded to two decimals, ties to even,
    and the float nearest to that decimal. *)
Definition round2 (x : t) : t :=
  match x with
  | S754_finite s _ _ =>
      let k := Py.round (to_Q x * 100) in
      if k =? 0 then S754_zero s else of_Q (inject_Z k / 100)
  | _ => x
  end.

End Float.

(** ** Health bands *)

Definition HEALTHY_BLINK_RATE_MIN : Z := 12.
Definition HEALTHY_BLINK_RATE_MAX : Z := 20.
Definition OPTIMAL_BLINK_RATE : Z := 16.

Definition Color : Type := Z * Z * Z.

Definition getBlinkHealthStatus (blinksPerMinute : Z) : string * Color :=
  if blinksPerMinute <? HEALTHY_BLINK_RATE_MIN then
    ("TOO LOW - Increase blinking!"%string, (0, 0, 255))
  else if blinksPerMinute >? HEALTHY_BLINK_RATE_MAX then
    ("TOO HIGH - Relax your eyes"%string, (0, 165, 255))
  else
    ("HEALTHY RATE - Keep it up!"%string, (0, 255, 0)).

(** The three bands of the specification, and the band a status label
    denotes. *)
Inductive HealthClassification : Type := TOO_LOW | HEALTHY | TOO_HIGH.

Definition band_of_label (label : string) : option HealthClassification :=
  if String.eqb label "TOO LOW - Increase blinking!" then Some TOO_LOW
  else if String.eqb label "TOO HIGH - Relax your eyes" then Some TOO_HIGH
  else if String.eqb label "HEALTHY RATE - Keep it up!" then Some HEALTHY
  else None.

Definition classify (rate : Z) : option HealthClassification :=
  band_of_label (fst (getBlinkHealthStatus rate)).

(** ** Globals of the script *)

Record Session : Type := mkSession {
  sessionStartTime : Q;
  lastMinuteCheck : Q;
  currentMinuteBlinks : Z;
  ratioList : list Z;
  blinkCounter : Z;
  counter : Z;
  color : Color
}.

(** State of the globals when the loop is entered; the two clock readings
    are the two [time.time()] calls of lines 70 and 71. *)
Definition initial (t0 t1 : Q) : Session :=
  {| sessionStartTime := t0;
     lastMinuteCheck := t1;
     currentMinuteBlinks := 0;
     ratioList := [];
     blinkCounter := 0;
     counter := 0;
     color := (255, 0, 255) |}.

(** ** The world outside the globals *)

(** The document handed to Firestore. *)
Record BlinkData : Type := mkBlinkData {
  bd_userName : string;
  bd_blinksPerMinute : Z;
  bd_healthStatus : string;
  bd_totalBlinks : Z;
  bd_sessionDurationMinutes : Float.t;
  bd_optimalRate : Z;
  bd_type : string;
  bd_createdAt : string;
  bd_updatedAt : string;
  bd_timestamp : string
}.

(** Lines written to the console, one constructor per [print]. *)
Inductive Printed : Type :=
| NotConnected
| SavedFor (userName : string)
| DocumentId (docId : string)
| BlinksStatus (blinksPerMinute : Z) (status : string)
| ErrorSaving (e : Py.Exception)
| CheckKeyFile
| MinuteSummary (userName : string) (blinksPerMinute : Z) (status : string)
| FailedToReadFrame
| SessionEnded (userName : string) (total : Z) (finalBlinksPerMinute : Z).

(** Contents of the cloud store: documents by collection, newest first. *)
Definition Cloud : Type := list (string * BlinkData).

(** The Firestore client: [db.collection(c).add(doc)] either returns the
    reference of the new document (here its id) or raises; it may change
    the store either way. *)
Record Client : Type := mkClient {
  add : string -> BlinkData -> Cloud -> outcome string * Cloud
}.

(** What one iteration puts on the screen (the values drawn by the
    [putTextRect] calls and plotted). *)
Inductive Shown : Type :=
| FacePanel (blinkCount : Z) (rate : Z) (status : string)
            (healthColor : Color) (plotted : Q) (plotColor : Color)
| NoFacePanel (totalBlinks : Z).

Record World : Type := mkWorld {
  globals : Session;
  stdout : list Printed;
  screen : list Shown;
  cloud : Cloud;
  ticks : nat
}.

(** What does not change while the loop runs: the [db] global, the user's
    name, and what [datetime.now().isoformat()] yields at its n-th call. *)
Record Env : Type := mkEnv {
  db : option Client;
  userName : string;
  isoformat : nat -> string
}.

(** ** The monad of the script's effectful code *)

Definition M (A : Type) : Type := World -> outcome A * World.

Definition ret {A} (a : A) : M A := fun w => (Returned a, w).

Definition bind {A B} (m : M A) (k : A -> M B) : M B :=
  fun w =>
    match m w with
    | (Returned a, w') => k a w'
    | (Raised e, w') => (Raised e, w')
    end.

(** [try: body except Exception as e: handler e]. *)
Definition try_except {A} (body : M A) (handler : Py.Exception -> M A) : M A :=
  fun w =>
    match body w with
    | (Returned a, w') => (Returned a, w')
    | (Raised e, w') => handler e w'
    end.

Declare Scope py_scope.
Delimit Scope py_scope with py.
Notation "x <- m ;; k" := (bind m (fun x => k))
  (at level 61, m at next level, right associativity) : py_scope.
Notation "m ;; k" := (bind m (fun _ => k))
  (at level 61, right associativity) : py_scope.
#[local] Open Scope py_scope.

Definition print (p : Printed) : M unit :=
  fun w => (Returned tt,
            {| globals := globals w; stdout := stdout w ++ [p];
               screen := screen w; cloud := cloud w; ticks := ticks w |}).

Definition imshow (p : Shown) : M unit :=
  fun w => (Returned tt,
            {| globals := globals w; stdout := stdout w;
               screen := screen w ++ [p]; cloud := cloud w;
               ticks := ticks w |}).

Definition now_isoformat (env : Env) : M string :=
  fun w => (Returned (isoformat env (ticks w)),
            {| globals := globals w; stdout := stdout w;
               screen := screen w; cloud := cloud w; ticks := S (ticks w) |}).

Definition collection_add (c : Client) (name : string) (doc : BlinkData)
  : M string :=
  fun w =>
    let (r, cl) := add c name doc (cloud w) in
    (r, {| globals := globals w; stdout := stdout w;
           screen := screen w; cloud := cl; ticks := ticks w |}).

Definition get_globals : M Session := fun w => (Returned (globals w), w).

Definition set_globals (s : Session) : M unit :=
  fun w => (Returned tt,
            {| globals := s; stdout := stdout w;
               screen := screen w; cloud := cloud w; ticks := ticks w |}).

(** ** Persistence (lines 84-116) *)

Definition saveBlinkDataToFirebase (env : Env)
    (userName : string) (blinksPerMinute : Z) (status : string)
    (totalBlinks : Z) (sessionDuration : Q) : M bool :=
  match db env with
  | None =>
      print NotConnected ;;
      ret false
  | Some client =>
      try_except
        (createdAt <- now_isoformat env ;;
         updatedAt <- now_isoformat env ;;
         timestamp <- now_isoformat env ;;
         let blinkData :=
           {| bd_userName := userName;
              bd_blinksPerMinute := blinksPerMinute;
              bd_healthStatus := status;
              bd_totalBlinks := totalBlinks;
              bd_sessionDurationMinutes :=
                Float.round2 (Float.fdiv (Float.of_Q sessionDuration)
                                         (Float.of_Q 60));
              bd_optimalRate := OPTIMAL_BLINK_RATE;
              bd_type := "blink_monitoring";
              bd_createdAt := createdAt;
              bd_updatedAt := updatedAt;
              bd_timestamp := timestamp |} in
         docId <- collection_add client "blink_monitoring" blinkData ;;
         print (SavedFor userName) ;;
         print (DocumentId docId) ;;
         print (BlinksStatus blinksPerMinute status) ;;
         ret true)
        (fun e =>
           print (ErrorSaving e) ;;
           print CheckKeyFile ;;
           ret false)
  end.

(** ** The ratio window (lines 187-191) *)

(** [ratioList.append(ratio)] followed by the conditional [pop(0)]. *)
Definition pushRatio (ratio : Z) (ratioList : list Z) : list Z :=
  let l := ratioList ++ [ratio] in
  if Py.len l >? 3 then Py.pop0 l else l.

(** [sum(ratioList) / len(ratioList)]: true division of two ints. *)
Definition ratioAvg (ratioList : list Z) : Q :=
  (inject_Z (Py.sum ratioList) / inject_Z (Py.len ratioList))%Q.

(** ** Blink detection and debounce (lines 193-203) *)

Definition registerBlink (s : Session) : Session :=
  {| sessionStartTime := sessionStartTime s;
     lastMinuteCheck := lastMinuteCheck s;
     currentMinuteBlinks := currentMinuteBlinks s + 1;
     ratioList := ratioList s;
     blinkCounter := blinkCounter s + 1;
     counter := 1;
     color := (0, 200, 0) |}.

Definition set_counter (c : Z) (col : Color) (s : Session) : Session :=
  {| sessionStartTime := sessionStartTime s;
     lastMinuteCheck := lastMinuteCheck s;
     currentMinuteBlinks := currentMinuteBlinks s;
     ratioList := ratioList s;
     blinkCounter := blinkCounter s;
     counter := c;
     color := col |}.

Definition set_ratioList (l : list Z) (s : Session) : Session :=
  {| sessionStartTime := sessionStartTime s;
     lastMinuteCheck := lastMinuteCheck s;
     currentMinuteBlinks := currentMinuteBlinks s;
     ratioList := l;
     blinkCounter := blinkCounter s;
     counter := counter s;
     color := color s |}.

(** The two consecutive [if] statements: the second one tests the counter
    the first one may just have set. *)
Definition detectBlink (ratioAvg : Q) (s : Session) : Session :=
  let s1 :=
    if Py.ltb ratioAvg 35 && (counter s =? 0) then registerBlink s else s in
  if negb (counter s1 =? 0) then
    let c := counter s1 + 1 in
    if c >? 10 then set_counter 0 (255, 0, 255) s1
    else set_counter c (color s1) s1
  else s1.

(** ** Live rate estimate (lines 206-210) *)

(** The float handed to [int]: [sessionDuration] is the exact difference of
    the two clock readings, and its float is what the subtraction of line
    206 yields. *)
Definition estimate_float (blinkCounter : Z) (sessionDuration : Q)
  : outcome Float.t :=
  let sd := Float.of_Q sessionDuration in
  if Float.leb (Float.of_Q 30) sd then
    and_then (Float.div sd (Float.of_Q 60)) (fun minutes =>
    and_then (Float.of_int blinkCounter) (fun b =>
    Float.div b minutes))
  else
    and_then (Float.div sd (Float.of_Q 60)) (fun minutes =>
    and_then (Float.of_int blinkCounter) (fun b =>
    and_then (Float.div b (Float.max minutes (Float.of_Q (1 # 2)))) (fun q =>
    Returned (Float.mul q (Float.of_Q (1 # 2)))))).

Definition estimatedBlinksPerMinute (blinkCounter : Z) (sessionDuration : Q)
  : outcome Z :=
  and_then (estimate_float blinkCounter sessionDuration) Float.int.

(** ** Minute bucket (lines 151-165) *)

Definition minuteDue (currentTime : Q) (s : Session) : bool :=
  Py.geb (currentTime - lastMinuteCheck s) 60.

Definition resetMinute (currentTime : Q) (s : Session) : Session :=
  {| sessionStartTime := sessionStartTime s;
     lastMinuteCheck := currentTime;
     currentMinuteBlinks := 0;
     ratioList := ratioList s;
     blinkCounter := blinkCounter s;
     counter := counter s;
     color := color s |}.

Definition minuteCheck (env : Env) (currentTime : Q) : M unit :=
  s <- get_globals ;;
  if minuteDue currentTime s then
    let sessionDuration := (currentTime - sessionStartTime s)%Q in
    let blinksPerMinute := currentMinuteBlinks s in
    let '(healthStatus, healthColor) := getBlinkHealthStatus blinksPerMinute in
    saveBlinkDataToFirebase env (userName env) blinksPerMinute healthStatus
                            (blinkCounter s) sessionDuration ;;
    s' <- get_globals ;;
    set_globals (resetMinute currentTime s') ;;
    print (MinuteSummary (userName env) blinksPerMinute healthStatus)
  else ret tt.

(** ** One iteration of the loop (lines 139-255) *)

(** What the outside world supplies to one iteration: whether the camera
    delivered a frame, the detector's result, the clock, and the key.  When a
    face is found, [faces] carries the outcome of lines 174-186 on its
    landmarks (see [Eye.measure]): the integer ratio, or the
    [ZeroDivisionError] of a zero horizontal distance. *)
Record Frame : Type := mkFrame {
  success : bool;
  faces : option (outcome Z);
  currentTime : Q;
  quit : option Q
}.

Inductive Control : Type := Continue | Break.

Definition lift {A} (o : outcome A) : M A := fun w => (o, w).

(** The globals after the face branch, for a measured [ratio]. *)
Definition faceUpdate (ratio : Z) (s : Session) : Session :=
  let l := pushRatio ratio (ratioList s) in
  detectBlink (ratioAvg l) (set_ratioList l s).

Definition faceBranch (ratio : Z) (currentTime : Q) : M unit :=
  s <- get_globals ;;
  let s' := faceUpdate ratio s in
  set_globals s' ;;
  let sessionDuration := (currentTime - sessionStartTime s')%Q in
  rate <- lift (estimatedBlinksPerMinute (blinkCounter s') sessionDuration) ;;
  let '(healthStatus, healthColor) := getBlinkHealthStatus rate in
  imshow (FacePanel (blinkCounter s') rate healthStatus healthColor
                    (ratioAvg (ratioList s')) (color s')).

Definition quitBranch (env : Env) (t : Q) : M unit :=
  s <- get_globals ;;
  let finalSessionDuration := (t - sessionStartTime s)%Q in
  let finalBlinksPerMinute :=
    Py.int (inject_Z (blinkCounter s)
            / Py.max (finalSessionDuration / 60) (1 # 10)) in
  let '(finalHealthStatus, _) := getBlinkHealthStatus finalBlinksPerMinute in
  saveBlinkDataToFirebase env (userName env) finalBlinksPerMinute
                          finalHealthStatus (blinkCounter s)
                          finalSessionDuration ;;
  s' <- get_globals ;;
  print (SessionEnded (userName env) (blinkCounter s') finalBlinksPerMinute).

Definition loop_body (env : Env) (f : Frame) : M Control :=
  if negb (success f) then
    print FailedToReadFrame ;;
    ret Break
  else
    minuteCheck env (currentTime f) ;;
    match faces f with
    | Some reading =>
        ratio <- lift reading ;;
        faceBranch ratio (currentTime f)
    | None =>
        s <- get_globals ;;
        imshow (NoFacePanel (blinkCounter s))
    end ;;
    match quit f with
    | Some t => quitBranch env t ;; ret Break
    | None => ret Continue
    end.

(** The [while True] loop over the frames the world supplies. *)
Fixpoint run (env : Env) (frames : list Frame) : M unit :=
  match frames with
  | [] => ret tt
  | f :: rest =>
      c <- loop_body env f ;;
      match c with
      | Continue => run env rest
      | Break => ret tt
      end
  end.

(** ** From landmarks to the integer ratio (lines 174-186) *)

Module Eye.

(** A landmark: integer pixel coordinates [x, y]. *)
Definition Point : Type := Z * Z.

(** The four landmarks of the face mesh the ratio uses: [face[159]],
    [face[23]], [face[130]] and [face[243]]. *)
Record Face : Type := mkFace {
  leftUp : Point;
  leftDown : Point;
  leftLeft : Point;
  leftRight : Point
}.

(** Squared Euclidean distance, an integer. *)
Definition sqdist (p1 p2 : Point) : Z :=
  let '(x1, y1) := p1 in
  let '(x2, y2) := p2 in
  (x2 - x1) * (x2 - x1) + (y2 - y1) * (y2 - y1).

(** Modelled from the spec: [detector.findDistance] belongs to the cvzone
    package, not to this repository; the specification calls its first
    result the Euclidean distance between the two points.  Here it is the
    float nearest to that distance: the correctly rounded square root of the
    exact squared distance. *)
Definition findDistance (p1 p2 : Point) : Float.t :=
  match sqdist p1 p2 with
  | Zpos n => Float.sqrt (S754_finite false n 0)
  | _ => S754_zero false
  end.

(** The float handed to [int] on line 186: [(lenghtVer/lenghtHor) * 100]. *)
Definition openness (lenghtVer lenghtHor : Float.t) : outcome Float.t :=
  and_then (Float.div lenghtVer lenghtHor) (fun q =>
  Returned (Float.mul q (Float.of_Q 100))).

(** Line 186: [int((lenghtVer/lenghtHor) * 100)]. *)
Definition ratio (lenghtVer lenghtHor : Float.t) : outcome Z :=
  and_then (openness lenghtVer lenghtHor) Float.int.

(** Lines 174-186 on the landmarks of a face. *)
Definition measure (face : Face) : outcome Z :=
  let lenghtVer := findDistance (leftUp face) (leftDown face) in
  let lenghtHor := findDistance (leftLeft face) (leftRight face) in
  ratio lenghtVer lenghtHor.

(** The ratio as the specification words it: [round] of the quotient, an
    integer nearest to it. *)
Definition is_rounding (x : Q) (n : Z) : Prop :=
  (Qabs (inject_Z n - x) <= 1 # 2)%Q.

End Eye.

(** A frame as the camera and the detector deliver it, and the frame the
    loop body consumes. *)
Record RawFrame : Type := mkRawFrame {
  raw_success : bool;
  raw_faces : list Eye.Face;
  raw_currentTime : Q;
  raw_quit : option Q
}.

Definition frame_of_raw (r : RawFrame) : Frame :=
  {| success := raw_success r;
     faces := match raw_faces r with
              | [] => None
              | face :: _ => Some (Eye.measure face)
              end;
     currentTime := raw_currentTime r;
     quit := raw_quit r |}.

(** ** Derived notions used by the statements *)

(** The globals after one iteration, as a function of the globals before:
    what [loop_body] does to [Session], with the effects on the rest of the
    world left out (see [loop_body_globals]). *)
Definition session_after (f : Frame) (s : Session) : Session :=
  if negb (success f) then s
  else
    let s1 :=
      if minuteDue (currentTime f) s then resetMinute (currentTime f) s
      else s in
    match faces f with
    | Some (Returned ratio) => faceUpdate ratio s1
    | Some (Raised _) => s1
    | None => s1
    end.

(** The globals after several iterations. *)
Definition sessions_after (frames : list Frame) (s : Session) : Session :=
  fold_left (fun s f => session_after f s) frames s.

(** A face frame: the camera delivered a frame, the detector found a face
    and the ratio could be computed, so lines 187-203 run. *)
Definition is_face_frame (f : Frame) : bool :=
  success f && match faces f with Some (Returned _) => true | _ => false end.

Definition face_count (frames : list Frame) : nat :=
  List.length (filter is_face_frame frames).

(** Lines 193-203 on consecutive face frames, one smoothed ratio each. *)
Definition faceFrames (ratios : list Q) (s : Session) : Session :=
  fold_left (fun s r => detectBlink r s) ratios s.

(** Lines 187-190 on consecutive face frames, one ratio each. *)
Definition feed (ratios : list Z) (window : list Z) : list Z :=
  fold_left (fun l r => pushRatio r l) ratios window.

(** The arithmetic mean, as the specification words it: the sum of the
    entries as rationals, over their number. *)
Definition mean (l : list Z) : Q :=
  (fold_right (fun x acc => inject_Z x + acc) 0 l
   / inject_Z (Z.of_nat (List.length l)))%Q.

(** The last [n] entries of a list. *)
Definition last_n {A} (n : nat) (l : list A) : list A :=
  skipn (List.length l - n) l.

Definition debounce_in_range (s : Session) : Prop := 0 <= counter s <= 10.

Definition minute_le_total (s : Session) : Prop :=
  0 <= currentMinuteBlinks s <= blinkCounter s.

Definition window_bounded (s : Session) : Prop :=
  (List.length (ratioList s) <= 3)%nat.

(** A world around given globals. *)
Definition world_of (s : Session) (out : list Printed) (scr : list Shown)
    (cl : Cloud) (tk : nat) : World :=
  {| globals := s; stdout := out; screen := scr; cloud := cl; ticks := tk |}.

(** Two clients for concrete runs: one that stores the document and one
    whose write always fails. *)
Definition storing_client : Client :=
  {| add := fun name doc cl => (Returned "doc-1"%string, (name, doc) :: cl) |}.

Definition failing_client : Client :=
  {| add := fun _ _ cl => (Raised (Py.StoreError "unavailable"), cl) |}.

Definition offline : Env :=
  {| db := None; userName := "Anonymous"; isoformat := fun _ => ""%string |}.

Definition online (c : Client) : Env :=
  {| db := Some c; userName := "Anonymous"; isoformat := fun _ => ""%string |}.

(** A face whose eyelids are 7 pixels apart and whose eye corners are 16
    pixels apart: the quotient is 43.75. *)
Definition narrow_eye : Eye.Face :=
  {| Eye.leftUp := (0, 0); Eye.leftDown := (0, 7);
     Eye.leftLeft := (0, 0); Eye.leftRight := (16, 0) |}.

(** A face whose eyelids are 29 pixels apart and whose eye corners are 100
    pixels apart. *)
Definition wide_eye : Eye.Face :=
  {| Eye.leftUp := (0, 0); Eye.leftDown := (0, 29);
     Eye.leftLeft := (0, 0); Eye.leftRight := (100, 0) |}.

(** The end-to-end scenario of the specification: 90 face frames spread
    over 65 seconds, with ratio 40 on all of them but three, where it dips
    to 20. *)
Definition scenario_ratios : list Z :=
  repeat 40 27 ++ repeat 20 3 ++ repeat 40 60.

Definition scenario : list Frame :=
  map (fun ir : nat * Z =>
         {| success := true;
            faces := Some (Returned (snd ir));
            currentTime := (inject_Z (Z.of_nat (fst ir)) * (65 # 89))%Q;
            quit := None |})
      (combine (seq 0 90) scenario_ratios).

(** ** The rest of the script *)

(** *** Firebase start-up (lines 14-41) *)

(** The lines the start-up block prints. *)
Inductive InitPrinted : Type :=
| InitializedWithKey
| KeyFileNotFound
| PleaseUpdateKey
| ClientInitialized
| InitializationFailed (e : Py.Exception)
| RunningOffline.

(** What the start-up block finds outside the script: whether
    [firebase_admin._apps] is already non-empty, whether the key file
    exists, and how [credentials.Certificate], [initialize_app] and
    [firestore.client] end when they are called. *)
Record Startup : Type := mkStartup {
  apps_present : bool;
  key_exists : bool;
  certificate : outcome unit;
  initialize_app : outcome unit;
  firestore_client : outcome Client
}.

(** The body of the [try]: the value bound to [db] and the lines printed,
    or the exception that left it, with the lines printed before.  A
    successful [initialize_app] registers the app, so [firebase_admin._apps]
    is non-empty at the second test. *)
Definition initBody (st : Startup)
  : outcome (option Client) * list InitPrinted :=
  let second (apps : bool) (out : list InitPrinted) :=
    if apps then
      match firestore_client st with
      | Returned c => (Returned (Some c), out ++ [ClientInitialized])
      | Raised e => (Raised e, out)
      end
    else (Returned None, out) in
  if negb (apps_present st) then
    if key_exists st then
      match certificate st with
      | Raised e => (Raised e, [])
      | Returned _ =>
          match initialize_app st with
          | Raised e => (Raised e, [])
          | Returned _ => second true [InitializedWithKey]
          end
      end
    else second false [KeyFileNotFound; PleaseUpdateKey]
  else second true [].

(** Lines 14-41: the [try] with its [except Exception] handler. *)
Definition initFirebase (st : Startup) : option Client * list InitPrinted :=
  match initBody st with
  | (Returned d, out) => (d, out)
  | (Raised e, out) => (None, out ++ [InitializationFailed e; RunningOffline])
  end.

(** *** The user's name (lines 47-50) *)

Module NameEntry.

(** A Python [str] is the sequence of its code points. *)
Definition char : Type := N.
Definition str : Type := list char.

Section Strip.

(** The whitespace test of [str.strip]. *)
Variable isspace : char -> bool.

Fixpoint lstrip (l : str) : str :=
  match l with
  | [] => []
  | c :: l' => if isspace c then lstrip l' else l
  end.

Definition rstrip (l : str) : str := rev (lstrip (rev l)).

(** [s.strip()]. *)
Definition strip (s : str) : str := rstrip (lstrip s).

(** [not s], and [s == ""]. *)
Definition is_empty (s : str) : bool :=
  match s with
  | [] => true
  | _ :: _ => false
  end.

(** The literal ["Anonymous"]. *)
Definition Anonymous : str :=
  [65; 110; 111; 110; 121; 109; 111; 117; 115]%N.

(** Lines 47-50; [answer] is what [simpledialog.askstring] returned, [None]
    when the dialog was cancelled. *)
Definition askUserName (answer : option str) : str :=
  let userName :=
    match answer with
    | None => Anonymous
    | Some u => if is_empty u || is_empty (strip u) then Anonymous else u
    end in
  strip userName.

End Strip.

(** The code points [str.strip] removes, those on which [str.isspace]
    holds: U+0009 to U+000D, U+001C to U+0020, U+0085, U+00A0, U+1680,
    U+2000 to U+200A, U+2028, U+2029, U+202F, U+205F and U+3000. *)
Definition isspace (c : char) : bool :=
  (((9 <=? c) && (c <=? 13)) || ((28 <=? c) && (c <=? 32))
   || (c =? 133) || (c =? 160) || (c =? 5760)
   || ((8192 <=? c) && (c <=? 8202))
   || (c =? 8232) || (c =? 8233) || (c =? 8239) || (c =? 8287)
   || (c =? 12288))%N.

End NameEntry.

(** *** The session clock on the panel (lines 224-225) *)

(** [x % y] on floats, for a positive [y]. *)
Definition float_mod (x y : Q) : Q := (x - y * inject_Z (Qfloor (x / y)))%Q.

Definition sessionMinutes (sessionDuration : Q) : Z :=
  Py.int (sessionDuration / 60).

Definition sessionSeconds (sessionDuration : Q) : Z :=
  Py.int (float_mod sessionDuration 60).

(** *** The final rate (line 251) *)

Definition finalBlinksPerMinute (blinkCounter : Z) (finalSessionDuration : Q)
  : Z :=
  Py.int (inject_Z blinkCounter
          / Py.max (finalSessionDuration / 60) (1 # 10)).

(** *** The part of an iteration before the key is read (lines 145-246) *)


(** *** Notions used by the further statements *)

(** The blinks reported by the per-minute summaries on the console. *)
Definition reported_blinks (out : list Printed) : Z :=
  fold_right (fun p acc =>
                match p with
                | MinuteSummary _ n _ => n + acc
                | _ => acc
                end) 0 out.

(** The colour of the blink-count panel follows the debounce counter. *)
Definition color_follows_counter (s : Session) : Prop :=
  color s = if counter s =? 0 then (255, 0, 255) else (0, 200, 0).

(** After [k] face frames: idle with at most one blink per ten of them, or
    in the refractory period of a blink that leaves room for the same. *)
Definition paced (k : Z) (s : Session) : Prop :=
  (counter s = 0 /\ 10 * blinkCounter s <= k)
  \/ (2 <= counter s <= 10 /\ 10 * blinkCounter s + counter s <= k + 11).

(** The ratios measured on the face frames of a list of frames, in order. *)
Definition face_ratios (frames : list Frame) : list Z :=
  flat_map (fun f =>
              if success f then
                match faces f with
                | Some (Returned ratio) => [ratio]
                | _ => []
                end
              else []) frames.

(** * Properties *)

(** ** Persistence never raises and never touches the globals *)

Lemma save_returns env u bpm st tot dur w :
  exists b w',
    saveBlinkDataToFirebase env u bpm st tot dur w = (Returned b, w')
    /\ globals w' = globals w
    /\ screen w' = screen w.
Proof.
  unfold saveBlinkDataToFirebase.
  destruct (db env) as [client|].
  - unfold try_except, bind, now_isoformat, collection_add, print, ret;
      cbn [globals stdout screen cloud ticks].
    match goal with
    | |- context [add client ?n ?d ?c] => destruct (add client n d c) as [[docId|e] cl]
    end; cbn; eauto.
  - unfold bind, print, ret; cbn; eauto.
Qed.

(** Unfold the primitive effects and compute on the world record. *)
Ltac run_effects :=
  unfold bind, ret, lift, print, imshow, get_globals, set_globals;
  cbn [globals stdout screen cloud ticks fst snd].

Lemma minuteCheck_run env now w :
  exists w',
    minuteCheck env now w = (Returned tt, w')
    /\ globals w' =
         (if minuteDue now (globals w) then resetMinute now (globals w)
          else globals w)
    /\ screen w' = screen w.
Proof.
  unfold minuteCheck, bind, get_globals.
  destruct (minuteDue now (globals w)).
  - destruct (getBlinkHealthStatus _) as [st hc].
    destruct (save_returns env (userName env) (currentMinuteBlinks (globals w))
                st (blinkCounter (globals w))
                (now - sessionStartTime (globals w))%Q w)
      as (b & w1 & -> & Hg & Hs).
    cbn. rewrite Hg. unfold print. cbn. eauto.
  - unfold ret. eauto.
Qed.

(** The face branch has updated the globals before the rate is computed,
    so they are the same whether or not that computation raises. *)
Lemma faceBranch_run ratio now w :
  exists o w',
    faceBranch ratio now w = (o, w')
    /\ globals w' = faceUpdate ratio (globals w)
    /\ stdout w' = stdout w.
Proof.
  unfold faceBranch. run_effects.
  destruct (estimatedBlinksPerMinute _ _) as [rate|e].
  - destruct (getBlinkHealthStatus rate) as [st hc]. run_effects. eauto.
  - eauto.
Qed.

Lemma quitBranch_run env t w :
  exists w', quitBranch env t w = (Returned tt, w') /\ globals w' = globals w.
Proof.
  unfold quitBranch, bind, get_globals.
  destruct (getBlinkHealthStatus _) as [st hc].
  match goal with
  | |- context [saveBlinkDataToFirebase ?e ?u ?b ?s ?t ?d w] =>
      destruct (save_returns e u b s t d w) as (r & w1 & -> & Hg & _)
  end.
  run_effects. eauto.
Qed.

(** The globals after an iteration are [session_after] of the globals
    before, whatever the store does. *)
Lemma loop_body_globals env f w :
  globals (snd (loop_body env f w)) = session_after f (globals w).
Proof.
  unfold loop_body, session_after.
  destruct (success f); cbn [negb]; [| reflexivity].
  unfold bind at 1.
  destruct (minuteCheck_run env (currentTime f) w) as (w1 & -> & Hg1 & _).
  rewrite <- Hg1. clear Hg1.
  unfold bind at 1.
  destruct (faces f) as [[ratio|e]|].
  - unfold bind at 1, lift.
    destruct (faceBranch_run ratio (currentTime f) w1)
      as ([[]|e] & w2 & -> & Hg2 & _); rewrite <- Hg2; [|reflexivity].
    destruct (quit f) as [t|]; [| reflexivity].
    unfold bind.
    destruct (quitBranch_run env t w2) as (w3 & -> & Hg3). cbn. assumption.
  - reflexivity.
  - unfold bind at 1, get_globals, imshow.
    destruct (quit f) as [t|]; [| reflexivity].
    unfold bind.
    match goal with
    | |- context [quitBranch env t ?w0] =>
        destruct (quitBranch_run env t w0) as (w3 & -> & Hg3)
    end.
    cbn. assumption.
Qed.

(** Whatever is true of the globals and kept by [session_after] is true
    after any number of iterations. *)
Lemma run_invariant (P : Session -> Prop) env :
  (forall f s, P s -> P (session_after f s)) ->
  forall frames w, P (globals w) -> P (globals (snd (run env frames w))).
Proof.
  intros Hstep frames.
  induction frames as [|f rest IH]; intros w Hw; [exact Hw|].
  cbn [run]. unfold bind.
  pose proof (loop_body_globals env f w) as Hg.
  destruct (loop_body env f w) as [[c|e] w1]; cbn [snd] in *.
  - destruct c.
    + apply IH. rewrite Hg. apply Hstep, Hw.
    + cbn. rewrite Hg. apply Hstep, Hw.
  - rewrite Hg. apply Hstep, Hw.
Qed.

(** ** Classification *)

(** C6.  The status is a function of the rate alone: below 12 it is TOO_LOW,
    above 20 it is TOO_HIGH, and from 12 to 20 it is HEALTHY.  In particular
    11 is TOO_LOW, 12 and 20 are HEALTHY, 21 is TOO_HIGH, and two calls on
    equal rates give equal results (label and colour). *)
Theorem classify_bands :
  (forall rate : Z,
     classify rate =
       Some (if rate <? 12 then TOO_LOW
             else if rate >? 20 then TOO_HIGH else HEALTHY))
  /\ (forall rate, rate < 12 <-> classify rate = Some TOO_LOW)
  /\ (forall rate, rate > 20 <-> classify rate = Some TOO_HIGH)
  /\ (forall rate, 12 <= rate <= 20 <-> classify rate = Some HEALTHY)
  /\ classify 11 = Some TOO_LOW
  /\ classify 12 = Some HEALTHY
  /\ classify 20 = Some HEALTHY
  /\ classify 21 = Some TOO_HIGH
  /\ (forall r1 r2 : Z,
        r1 = r2 -> getBlinkHealthStatus r1 = getBlinkHealthStatus r2).
Proof.
  assert (Hc : forall rate : Z,
             classify rate =
               Some (if rate <? 12 then TOO_LOW
                     else if rate >? 20 then TOO_HIGH else HEALTHY)).
  { intros rate. unfold classify, getBlinkHealthStatus,
      HEALTHY_BLINK_RATE_MIN, HEALTHY_BLINK_RATE_MAX.
    destruct (rate <? 12); [reflexivity|].
    destruct (rate >? 20); reflexivity. }
  assert (Hiff : forall rate,
             (rate < 12 <-> classify rate = Some TOO_LOW)
             /\ (rate > 20 <-> classify rate = Some TOO_HIGH)
             /\ (12 <= rate <= 20 <-> classify rate = Some HEALTHY)).
  { intros rate. rewrite Hc.
    destruct (Z.ltb_spec rate 12); destruct (Z.gtb_spec rate 20);
      repeat split; intros; try lia; try discriminate. }
  split; [exact Hc|].
  split; [intros rate; apply (Hiff rate)|].
  split; [intros rate; apply (Hiff rate)|].
  split; [intros rate; apply (Hiff rate)|].
  repeat split. intros r1 r2 ->. reflexivity.
Qed.

(** ** Persistence *)

(** C9.  [saveBlinkDataToFirebase] always returns, whatever its arguments and
    whatever the store does: with no store configured it returns [False] and
    writes nothing; with a store it hands over one document and returns
    [True] when the write returns and [False] when the write raises.  In
    every case the globals (blink counts, timers, ratio window, debounce
    counter) are the ones it was called with, and the iteration of the loop
    that called it at a minute boundary goes on to reset the bucket. *)
Theorem saveBlinkDataToFirebase_absorbs env u bpm st tot dur w :
  exists b w',
    saveBlinkDataToFirebase env u bpm st tot dur w = (Returned b, w')
    /\ globals w' = globals w
    /\ (db env = None -> b = false /\ cloud w' = cloud w)
    /\ (forall client, db env = Some client ->
          exists doc r,
            bd_userName doc = u
            /\ bd_blinksPerMinute doc = bpm
            /\ bd_healthStatus doc = st
            /\ bd_totalBlinks doc = tot
            /\ add client "blink_monitoring" doc (cloud w) = (r, cloud w')
            /\ b = match r with Returned _ => true | Raised _ => false end)
    /\ (forall now, exists w2,
          minuteCheck env now w = (Returned tt, w2)
          /\ globals w2 =
               if minuteDue now (globals w) then resetMinute now (globals w)
               else globals w).
Proof.
  assert (Hmc : forall now, exists w2,
             minuteCheck env now w = (Returned tt, w2)
             /\ globals w2 =
                  if minuteDue now (globals w) then resetMinute now (globals w)
                  else globals w).
  { intros now. destruct (minuteCheck_run env now w) as (w2 & H1 & H2 & _).
    eauto. }
  unfold saveBlinkDataToFirebase.
  destruct (db env) as [client|].
  - unfold try_except, now_isoformat, collection_add. run_effects.
    match goal with
    | |- context [add client ?n ?d ?c] =>
        destruct (add client n d c) as [[docId|e] cl] eqn:Hadd
    end; run_effects.
    + do 2 eexists. split; [reflexivity|]. split; [reflexivity|].
      split; [discriminate|]. split; [|exact Hmc].
      intros c Hc. injection Hc as <-.
      do 2 eexists. repeat split; [..|exact Hadd|]; reflexivity.
    + do 2 eexists. split; [reflexivity|]. split; [reflexivity|].
      split; [discriminate|]. split; [|exact Hmc].
      intros c Hc. injection Hc as <-.
      do 2 eexists. repeat split; [..|exact Hadd|]; reflexivity.
  - run_effects. do 2 eexists. split; [reflexivity|]. split; [reflexivity|].
    split; [auto|]. split; [discriminate|exact Hmc].
Qed.

(** ** Comparisons on floats *)

Lemma ltb_lt a b : Py.ltb a b = true <-> (a < b)%Q.
Proof.
  unfold Py.ltb. rewrite negb_true_iff, <- not_true_iff_false, Qle_bool_iff.
  split; [apply Qnot_le_lt | apply Qlt_not_le].
Qed.

Lemma ltb_ge a b : Py.ltb a b = false <-> (b <= a)%Q.
Proof.
  unfold Py.ltb. rewrite negb_false_iff. apply Qle_bool_iff.
Qed.

Lemma geb_le a b : Py.geb a b = true <-> (b <= a)%Q.
Proof. apply Qle_bool_iff. Qed.

Lemma geb_lt a b : Py.geb a b = false <-> (a < b)%Q.
Proof.
  unfold Py.geb. rewrite <- not_true_iff_false, Qle_bool_iff.
  split; [apply Qnot_le_lt | apply Qlt_not_le].
Qed.

(** ** Debounce: the three cases of lines 193-203 *)

Lemma detectBlink_blink r s :
  (r < 35)%Q -> counter s = 0 ->
  detectBlink r s = set_counter 2 (0, 200, 0) (registerBlink s).
Proof.
  intros Hr Hc. unfold detectBlink.
  rewrite (proj2 (ltb_lt r 35) Hr), Hc. reflexivity.
Qed.

Lemma detectBlink_open r s :
  (35 <= r)%Q -> counter s = 0 -> detectBlink r s = s.
Proof.
  intros Hr Hc. unfold detectBlink.
  rewrite (proj2 (ltb_ge r 35) Hr). cbn [andb]. rewrite Hc. reflexivity.
Qed.

Lemma detectBlink_refractory r s :
  counter s <> 0 ->
  detectBlink r s =
    if counter s + 1 >? 10 then set_counter 0 (255, 0, 255) s
    else set_counter (counter s + 1) (color s) s.
Proof.
  intros Hc. unfold detectBlink.
  apply Z.eqb_neq in Hc. rewrite Hc, andb_false_r. rewrite Hc. reflexivity.
Qed.

(** While the counter climbs from [c >= 1] towards 10, face frames change
    nothing but the counter, whatever the ratios. *)
Lemma faceFrames_climb rs :
  forall s,
    1 <= counter s -> counter s + Z.of_nat (List.length rs) <= 10 ->
    counter (faceFrames rs s) = counter s + Z.of_nat (List.length rs)
    /\ blinkCounter (faceFrames rs s) = blinkCounter s
    /\ currentMinuteBlinks (faceFrames rs s) = currentMinuteBlinks s.
Proof.
  induction rs as [|r rs IH]; intros s H1 H2.
  - cbn. repeat split; lia.
  - cbn [List.length] in H2. cbn [faceFrames fold_left].
    fold (faceFrames rs (detectBlink r s)).
    rewrite detectBlink_refractory by lia.
    destruct (Z.gtb_spec (counter s + 1) 10) as [Hgt|Hle]; [lia|].
    destruct (IH (set_counter (counter s + 1) (color s) s)) as (Ha & Hb & Hc);
      cbn [counter set_counter]; try lia.
    cbn [counter blinkCounter currentMinuteBlinks set_counter] in *.
    rewrite Ha, Hb, Hc. cbn [List.length]. repeat split; lia.
Qed.

(** The face frame that finds the counter at 10 puts it back to 0. *)
Lemma faceFrames_lapse rs :
  forall s,
    1 <= counter s <= 10 -> counter s + Z.of_nat (List.length rs) = 11 ->
    counter (faceFrames rs s) = 0
    /\ blinkCounter (faceFrames rs s) = blinkCounter s
    /\ currentMinuteBlinks (faceFrames rs s) = currentMinuteBlinks s.
Proof.
  intros s H1 H2.
  destruct (exists_last (l := rs)) as (front & r & ->).
  { intros ->. cbn in H2. lia. }
  rewrite length_app in H2. cbn [List.length] in H2.
  unfold faceFrames. rewrite fold_left_app. cbn [fold_left].
  fold (faceFrames front s).
  destruct (faceFrames_climb front s) as (Ha & Hb & Hc); try lia.
  rewrite detectBlink_refractory by lia.
  destruct (Z.gtb_spec (counter (faceFrames front s) + 1) 10); [|lia].
  cbn [counter blinkCounter currentMinuteBlinks set_counter]. auto.
Qed.

Lemma length_firstn_le {A} (k : nat) (l : list A) :
  (k <= List.length l)%nat -> List.length (firstn k l) = k.
Proof. intros H. rewrite length_firstn. lia. Qed.

Lemma detectBlink_counter_range r s :
  debounce_in_range s -> debounce_in_range (detectBlink r s).
Proof.
  unfold debounce_in_range, detectBlink. intros H.
  destruct (Py.ltb r 35 && (counter s =? 0)); cbn [counter registerBlink negb Z.eqb].
  - cbn. lia.
  - destruct (Z.eqb_spec (counter s) 0); cbn [negb]; [lia|].
    destruct (Z.gtb_spec (counter s + 1) 10); cbn [counter set_counter]; lia.
Qed.

Lemma session_after_counter_range f s :
  debounce_in_range s -> debounce_in_range (session_after f s).
Proof.
  intros H. unfold session_after.
  destruct (success f); cbn [negb]; [|exact H].
  assert (H1 : debounce_in_range
                 (if minuteDue (currentTime f) s
                  then resetMinute (currentTime f) s else s)).
  { destruct (minuteDue (currentTime f) s); exact H. }
  destruct (faces f) as [[ratio|e]|]; try exact H1.
  unfold faceUpdate. apply detectBlink_counter_range. exact H1.
Qed.

Lemma session_after_no_face f s :
  faces f = None ->
  counter (session_after f s) = counter s
  /\ blinkCounter (session_after f s) = blinkCounter s
  /\ ratioList (session_after f s) = ratioList s.
Proof.
  intros Hf. unfold session_after. rewrite Hf.
  destruct (success f); cbn [negb]; [|auto].
  destruct (minuteDue (currentTime f) s); auto.
Qed.

(** What an iteration does to the counter and to the total: nothing unless
    it is a face frame, and then what [detectBlink] does for the mean of the
    window. *)
Lemma session_after_debounce f s :
  if is_face_frame f then
    exists r t,
      session_after f s = detectBlink r t
      /\ counter t = counter s /\ blinkCounter t = blinkCounter s
  else
    counter (session_after f s) = counter s
    /\ blinkCounter (session_after f s) = blinkCounter s.
Proof.
  unfold is_face_frame, session_after.
  destruct (success f); cbn [negb andb]; [|auto].
  destruct (faces f) as [[ratio|e]|].
  - unfold faceUpdate. do 2 eexists. split; [reflexivity|].
    destruct (minuteDue (currentTime f) s); auto.
  - destruct (minuteDue (currentTime f) s); auto.
  - destruct (minuteDue (currentTime f) s); auto.
Qed.

Lemma sessions_after_idle frames :
  forall s,
    face_count frames = 0%nat ->
    counter (sessions_after frames s) = counter s
    /\ blinkCounter (sessions_after frames s) = blinkCounter s.
Proof.
  unfold face_count.
  induction frames as [|f rest IH]; intros s H0; [auto|].
  cbn [filter] in H0. cbn [sessions_after fold_left].
  fold (sessions_after rest (session_after f s)).
  pose proof (session_after_debounce f s) as Hf.
  destruct (is_face_frame f); [discriminate H0|].
  destruct Hf as (Hc & Hb).
  destruct (IH (session_after f s) H0) as (Hc' & Hb'). split; congruence.
Qed.

(** The loop-level counterpart of [faceFrames_climb]: iterations without a
    face, and minute resets, do not advance the counter. *)
Lemma sessions_after_climb frames :
  forall s,
    1 <= counter s -> counter s + Z.of_nat (face_count frames) <= 10 ->
    counter (sessions_after frames s)
    = counter s + Z.of_nat (face_count frames)
    /\ blinkCounter (sessions_after frames s) = blinkCounter s.
Proof.
  unfold face_count.
  induction frames as [|f rest IH]; intros s H1 H2.
  - cbn. split; lia.
  - cbn [filter] in *. cbn [sessions_after fold_left].
    fold (sessions_after rest (session_after f s)).
    pose proof (session_after_debounce f s) as Hf.
    destruct (is_face_frame f).
    + cbn [List.length] in *.
      destruct Hf as (r & t & -> & Hc & Hb).
      assert (Hd : detectBlink r t = set_counter (counter t + 1) (color t) t).
      { rewrite detectBlink_refractory by lia.
        destruct (Z.gtb_spec (counter t + 1) 10); [lia|reflexivity]. }
      destruct (IH (detectBlink r t)) as (Hc' & Hb');
        rewrite Hd; cbn [counter blinkCounter set_counter]; try lia.
      rewrite Hd in Hc', Hb'.
      cbn [counter blinkCounter set_counter] in Hc', Hb'. split; lia.
    + destruct Hf as (Hc & Hb).
      destruct (IH (session_after f s)) as (Hc' & Hb'); lia.
Qed.

Lemma sessions_after_lapse frames :
  forall s,
    1 <= counter s <= 10 -> counter s + Z.of_nat (face_count frames) = 11 ->
    counter (sessions_after frames s) = 0
    /\ blinkCounter (sessions_after frames s) = blinkCounter s.
Proof.
  induction frames as [|f rest IH]; intros s H1 H2.
  - cbn in H2. lia.
  - unfold face_count in H2. cbn [filter] in H2.
    cbn [sessions_after fold_left].
    fold (sessions_after rest (session_after f s)).
    pose proof (session_after_debounce f s) as Hf.
    destruct (is_face_frame f).
    + cbn [List.length] in H2. fold (face_count rest) in H2.
      destruct Hf as (r & t & -> & Hc & Hb).
      rewrite detectBlink_refractory by lia.
      destruct (Z.gtb_spec (counter t + 1) 10) as [Hgt|Hle].
      * destruct (sessions_after_idle rest
                    (set_counter 0 (255, 0, 255) t)) as (Hc' & Hb');
          [lia|].
        cbn [counter blinkCounter set_counter] in Hc', Hb'. split; lia.
      * destruct (IH (set_counter (counter t + 1) (color t) t))
          as (Hc' & Hb'); cbn [counter blinkCounter set_counter] in *;
          lia.
    + fold (face_count rest) in H2. destruct Hf as (Hc & Hb).
      destruct (IH (session_after f s)) as (Hc' & Hb'); lia.
Qed.

(** A run of the loop leaves the globals that [sessions_after] computes for
    the iterations it executed: all of them, or those up to the one that
    broke out of the loop or raised. *)
Lemma run_globals env frames :
  forall w,
    exists k,
      (k <= List.length frames)%nat
      /\ globals (snd (run env frames w))
         = sessions_after (firstn k frames) (globals w).
Proof.
  induction frames as [|f rest IH]; intros w.
  - exists 0%nat. split; [lia|reflexivity].
  - cbn [run]. unfold bind.
    pose proof (loop_body_globals env f w) as Hg.
    destruct (loop_body env f w) as [[[|]|e] w1]; cbn [snd] in *.
    + destruct (IH w1) as (k & Hk & Hrun).
      exists (S k). split; [cbn; lia|].
      cbn [firstn sessions_after fold_left].
      fold (sessions_after (firstn k rest) (session_after f (globals w))).
      rewrite <- Hg. exact Hrun.
    + exists 1%nat. split; [cbn; lia|]. cbn. exact Hg.
    + exists 1%nat. split; [cbn; lia|]. cbn. exact Hg.
Qed.

(** ** Blink registration and the refractory period *)

(** C1 (amended).  A smoothed ratio below 35 that arrives while the debounce
    counter is 0 registers exactly one blink: the total and the
    current-minute count each grow by 1 and the counter leaves 0 (Refractory).
    Whatever smoothed ratios arrive on the next 9 face frames, below 35 or
    not, these lines count no further blink; and in the loop, whatever
    iterations follow (with or without a face, with or without a minute
    reset), the total is unchanged as long as at most 9 of them are face
    frames. *)
Theorem blink_registered_once (r : Q) (s : Session) (rs : list Q) :
  (r < 35)%Q -> counter s = 0 -> (List.length rs <= 9)%nat ->
  blinkCounter (detectBlink r s) = blinkCounter s + 1
  /\ currentMinuteBlinks (detectBlink r s) = currentMinuteBlinks s + 1
  /\ 1 <= counter (detectBlink r s) <= 10
  /\ blinkCounter (faceFrames rs (detectBlink r s))
     = blinkCounter (detectBlink r s)
  /\ currentMinuteBlinks (faceFrames rs (detectBlink r s))
     = currentMinuteBlinks (detectBlink r s)
  /\ (forall frames,
        (face_count frames <= 9)%nat ->
        blinkCounter (sessions_after frames (detectBlink r s))
        = blinkCounter (detectBlink r s)).
Proof.
  intros Hr Hc Hlen.
  rewrite (detectBlink_blink r s Hr Hc).
  set (s1 := set_counter 2 (0, 200, 0) (registerBlink s)).
  assert (Hs1 : counter s1 = 2) by reflexivity.
  assert (Hloop : forall frames,
             (face_count frames <= 9)%nat ->
             blinkCounter (sessions_after frames s1) = blinkCounter s1).
  { intros frames Hfc.
    destruct (Nat.eq_dec (face_count frames) 9) as [H9|H9].
    - destruct (sessions_after_lapse frames s1) as (_ & Hb); [lia|lia|exact Hb].
    - destruct (sessions_after_climb frames s1) as (_ & Hb); [lia|lia|exact Hb]. }
  split; [cbn; lia|]. split; [cbn; lia|]. split; [cbn; lia|].
  split; [|split; [|exact Hloop]].
  - destruct (Nat.eq_dec (List.length rs) 9) as [H9|H9].
    + destruct (faceFrames_lapse rs s1) as (_ & Hb & _); [lia|lia|exact Hb].
    + destruct (faceFrames_climb rs s1) as (_ & Hb & _); [lia|lia|exact Hb].
  - destruct (Nat.eq_dec (List.length rs) 9) as [H9|H9].
    + destruct (faceFrames_lapse rs s1) as (_ & _ & Hm); [lia|lia|exact Hm].
    + destruct (faceFrames_climb rs s1) as (_ & _ & Hm); [lia|lia|exact Hm].
Qed.

Lemma blink_registered_once_witness :
  ((20 < 35)%Q /\ counter (initial 0 0) = 0
   /\ (List.length (repeat (20 : Q) 9) <= 9)%nat)
  /\ blinkCounter (detectBlink 20 (initial 0 0)) = 1
  /\ blinkCounter (faceFrames (repeat (20 : Q) 9) (detectBlink 20 (initial 0 0)))
     = 1.
Proof.
  assert (Hr : (20 < 35)%Q) by reflexivity.
  assert (Hc : counter (initial 0 0) = 0) by reflexivity.
  assert (Hl : (List.length (repeat (20 : Q) 9) <= 9)%nat) by (cbn; lia).
  split; [auto|].
  destruct (blink_registered_once 20 (initial 0 0) (repeat (20 : Q) 9) Hr Hc Hl)
    as (H1 & _ & _ & H4 & _).
  split; [exact H1|].
  rewrite H4. exact H1.
Defined.

(** C1 as stated fails: after a blink, ten further face frames with a
    smoothed ratio of 20 register a second blink, on the tenth of them. *)
Lemma tenth_frame_registers_again :
  ~ (forall (r : Q) (s : Session) (rs : list Q),
       (r < 35)%Q -> counter s = 0 ->
       Forall (fun x => (x < 35)%Q) rs -> (List.length rs <= 10)%nat ->
       blinkCounter (faceFrames rs (detectBlink r s))
       = blinkCounter (detectBlink r s)).
Proof.
  intros H.
  specialize (H 20%Q (initial 0 0) (repeat 20%Q 10)).
  assert (Hlt : (20 < 35)%Q) by reflexivity.
  specialize (H Hlt eq_refl).
  assert (Hall : Forall (fun x => (x < 35)%Q) (repeat 20%Q 10))
    by (repeat constructor).
  specialize (H Hall).
  assert (Hlen : (List.length (repeat 20%Q 10) <= 10)%nat) by (cbn; lia).
  specialize (H Hlen).
  vm_compute in H. discriminate H.
Qed.

(** C2 (amended).  At every frame boundary of a run from the initial state
    the debounce counter lies in [0,10]; iterations without a face leave it
    alone; and once a blink has taken it out of 0 it is non-zero after each
    of the next 8 face frames (it reads 2 + k after the k-th) and is back at
    exactly 0 after the 9th, also when iterations without a face come in
    between. *)
Theorem debounce_range_and_lapse :
  (forall env t0 t1 out scr cl tk frames,
     debounce_in_range
       (globals (snd (run env frames
                        (world_of (initial t0 t1) out scr cl tk)))))
  /\ (forall f s, faces f = None -> counter (session_after f s) = counter s)
  /\ (forall (r : Q) (s : Session),
        (r < 35)%Q -> counter s = 0 ->
        (forall rs k,
           List.length rs = 9%nat -> (k < 9)%nat ->
           counter (faceFrames (firstn k rs) (detectBlink r s))
           = 2 + Z.of_nat k)
        /\ (forall rs,
              List.length rs = 9%nat ->
              counter (faceFrames rs (detectBlink r s)) = 0)
        /\ (forall frames,
              (face_count frames < 9)%nat ->
              counter (sessions_after frames (detectBlink r s))
              = 2 + Z.of_nat (face_count frames))
        /\ (forall frames,
              face_count frames = 9%nat ->
              counter (sessions_after frames (detectBlink r s)) = 0)).
Proof.
  split; [|split].
  - intros env t0 t1 out scr cl tk frames.
    apply (run_invariant debounce_in_range).
    + apply session_after_counter_range.
    + cbn. unfold debounce_in_range. cbn. lia.
  - intros f s Hf. apply (session_after_no_face f s Hf).
  - intros r s Hr Hc.
    rewrite (detectBlink_blink r s Hr Hc).
    set (s1 := set_counter 2 (0, 200, 0) (registerBlink s)).
    assert (Hs1 : counter s1 = 2) by reflexivity.
    split; [|split; [|split]].
    + intros rs k Hlen Hk.
      assert (Hfl : List.length (firstn k rs) = k)
        by (apply length_firstn_le; lia).
      destruct (faceFrames_climb (firstn k rs) s1) as (Ha & _);
        rewrite ?Hfl; lia.
    + intros rs Hlen.
      destruct (faceFrames_lapse rs s1) as (Ha & _); lia.
    + intros frames Hfc.
      destruct (sessions_after_climb frames s1) as (Ha & _); lia.
    + intros frames Hfc.
      destruct (sessions_after_lapse frames s1) as (Ha & _); lia.
Qed.

Lemma debounce_range_and_lapse_witness :
  ((20 < 35)%Q /\ counter (initial 0 0) = 0
   /\ List.length (repeat (20 : Q) 9) = 9%nat)
  /\ counter (faceFrames (firstn 8 (repeat (20 : Q) 9))
                (detectBlink 20 (initial 0 0))) = 10
  /\ counter (faceFrames (repeat (20 : Q) 9) (detectBlink 20 (initial 0 0)))
     = 0.
Proof.
  assert (Hr : (20 < 35)%Q) by reflexivity.
  assert (Hc : counter (initial 0 0) = 0) by reflexivity.
  assert (Hl : List.length (repeat (20 : Q) 9) = 9%nat) by reflexivity.
  split; [auto|].
  destruct (proj2 (proj2 debounce_range_and_lapse) 20%Q (initial 0 0) Hr Hc)
    as (H1 & H2 & _).
  split; [|exact (H2 _ Hl)].
  apply (H1 (repeat (20 : Q) 9) 8%nat Hl). lia.
Defined.

(** C2 as stated fails: the counter is already back at 0 after the 9th face
    frame that follows the blink, so it is not true that it stays away from
    0 until the 11th. *)
Lemma counter_back_before_eleventh :
  ~ (forall (r : Q) (s : Session) (rs : list Q),
       (r < 35)%Q -> counter s = 0 -> List.length rs = 11%nat ->
       (forall k, (k < 11)%nat ->
          counter (faceFrames (firstn k rs) (detectBlink r s)) <> 0)
       /\ counter (faceFrames rs (detectBlink r s)) = 0).
Proof.
  intros H.
  assert (Hr : (50 < 35 -> False)%Q) by (intros C; discriminate C).
  assert (Hlt : (20 < 35)%Q) by reflexivity.
  destruct (H 20%Q (initial 0 0) (repeat 50%Q 11) Hlt eq_refl eq_refl)
    as (Hk & _).
  apply (Hk 9%nat); [lia|]. vm_compute. reflexivity.
Qed.

(** C10.  On the frame that registers a blink (smoothed ratio below 35,
    counter 0) the first [if] sets the counter to 1 and the second [if], run
    on the same frame, raises it, so the frame ends with the counter at 2.
    The counter is then non-zero after each of the next 8 face frames and
    back at 0 after the 9th, whatever the ratios, and whatever iterations
    without a face lie in between.  The same holds of the whole face branch,
    where the smoothed ratio is the mean of the window after the new ratio
    was pushed. *)
Theorem blink_frame_ends_at_two (r : Q) (s : Session) (rs : list Q) :
  (r < 35)%Q -> counter s = 0 -> List.length rs = 9%nat ->
  counter (registerBlink s) = 1
  /\ counter (detectBlink r s) = 2
  /\ (forall k, (k < 9)%nat ->
        counter (faceFrames (firstn k rs) (detectBlink r s)) <> 0)
  /\ counter (faceFrames rs (detectBlink r s)) = 0
  /\ (forall ratio : Z,
        (ratioAvg (pushRatio ratio (ratioList s)) < 35)%Q ->
        counter (faceUpdate ratio s) = 2
        /\ blinkCounter (faceUpdate ratio s) = blinkCounter s + 1)
  /\ (forall frames,
        ((face_count frames < 9)%nat ->
         counter (sessions_after frames (detectBlink r s)) <> 0)
        /\ (face_count frames = 9%nat ->
            counter (sessions_after frames (detectBlink r s)) = 0)).
Proof.
  intros Hr Hc Hlen.
  split; [reflexivity|].
  rewrite (detectBlink_blink r s Hr Hc).
  set (s1 := set_counter 2 (0, 200, 0) (registerBlink s)).
  assert (Hs1 : counter s1 = 2) by reflexivity.
  split; [reflexivity|]. split; [|split; [|split]].
  - intros k Hk.
    assert (Hfl : List.length (firstn k rs) = k)
      by (apply length_firstn_le; lia).
    destruct (faceFrames_climb (firstn k rs) s1) as (Ha & _);
      rewrite ?Hfl; lia.
  - destruct (faceFrames_lapse rs s1) as (Ha & _); lia.
  - intros ratio Havg. unfold faceUpdate.
    rewrite detectBlink_blink; [split; reflexivity|exact Havg|exact Hc].
  - intros frames. split; intros Hfc.
    + destruct (sessions_after_climb frames s1) as (Ha & _); lia.
    + destruct (sessions_after_lapse frames s1) as (Ha & _); lia.
Qed.

Lemma blink_frame_ends_at_two_witness :
  ((20 < 35)%Q /\ counter (initial 0 0) = 0
   /\ List.length (repeat (40 : Q) 9) = 9%nat)
  /\ counter (detectBlink 20 (initial 0 0)) = 2
  /\ counter (faceFrames (repeat (40 : Q) 9) (detectBlink 20 (initial 0 0)))
     = 0.
Proof.
  assert (Hr : (20 < 35)%Q) by reflexivity.
  assert (Hc : counter (initial 0 0) = 0) by reflexivity.
  assert (Hl : List.length (repeat (40 : Q) 9) = 9%nat) by reflexivity.
  split; [auto|].
  destruct (blink_frame_ends_at_two 20 (initial 0 0) (repeat (40 : Q) 9)
              Hr Hc Hl) as (_ & H2 & _ & H4 & _).
  split; [exact H2|exact H4].
Defined.

(** ** Minute count against total count *)

Lemma detectBlink_minute_le_total r s :
  minute_le_total s -> minute_le_total (detectBlink r s).
Proof.
  unfold minute_le_total, detectBlink. intros H.
  destruct (Py.ltb r 35 && (counter s =? 0));
    cbn [counter registerBlink negb Z.eqb].
  - cbn. lia.
  - destruct (counter s =? 0); cbn [negb]; [exact H|].
    destruct (counter s + 1 >? 10); exact H.
Qed.

Lemma session_after_minute_le_total f s :
  minute_le_total s -> minute_le_total (session_after f s).
Proof.
  intros H. unfold session_after.
  destruct (success f); cbn [negb]; [|exact H].
  assert (H1 : minute_le_total
                 (if minuteDue (currentTime f) s
                  then resetMinute (currentTime f) s else s)).
  { destruct (minuteDue (currentTime f) s); [|exact H].
    unfold minute_le_total in *. cbn. lia. }
  destruct (faces f) as [[ratio|e]|]; try exact H1.
  unfold faceUpdate. apply detectBlink_minute_le_total. exact H1.
Qed.

(** C8.  After any number of iterations from the initial state, with or
    without a face on each and with or without a minute reset on each, the
    globals satisfy 0 <= currentMinuteBlinks <= blinkCounter; so do the
    states inside the next iteration: right after its minute reset and
    right after its face branch. *)
Theorem minute_blinks_le_total env t0 t1 out scr cl tk frames :
  let s := globals (snd (run env frames
                           (world_of (initial t0 t1) out scr cl tk))) in
  minute_le_total s
  /\ (forall now, minute_le_total (resetMinute now s))
  /\ (forall ratio, minute_le_total (faceUpdate ratio s))
  /\ (forall f, minute_le_total (session_after f s)).
Proof.
  intros s.
  assert (Hs : minute_le_total s).
  { apply (run_invariant minute_le_total).
    - apply session_after_minute_le_total.
    - unfold minute_le_total. cbn. lia. }
  split; [exact Hs|]. split; [|split].
  - intros now. unfold minute_le_total in *. cbn. lia.
  - intros ratio. unfold faceUpdate.
    apply detectBlink_minute_le_total. exact Hs.
  - intros f. apply session_after_minute_le_total. exact Hs.
Qed.

(** ** The ratio window *)

Lemma last_n_snoc {A} (m : nat) (l : list A) (x : A) :
  last_n (S m) (l ++ [x]) = last_n m l ++ [x].
Proof.
  unfold last_n. rewrite length_app. cbn [List.length].
  replace (List.length l + 1 - S m)%nat with (List.length l - m)%nat by lia.
  rewrite skipn_app.
  replace (List.length l - m - List.length l)%nat with 0%nat by lia.
  reflexivity.
Qed.

Lemma last_n_last_n {A} (m n : nat) (l : list A) :
  (m <= n)%nat -> last_n m (last_n n l) = last_n m l.
Proof.
  intros Hmn. unfold last_n. rewrite length_skipn, skipn_skipn.
  f_equal. lia.
Qed.

Lemma last_n_length {A} (n : nat) (l : list A) :
  (List.length (last_n n l) <= n)%nat.
Proof. unfold last_n. rewrite length_skipn. lia. Qed.

Lemma pushRatio_last_n r l :
  (List.length l <= 3)%nat -> pushRatio r l = last_n 3 (l ++ [r]).
Proof.
  intros H.
  destruct l as [|a [|b [|c [|d l]]]]; try reflexivity.
  cbn in H. lia.
Qed.

Lemma feed_last_n inputs : feed inputs [] = last_n 3 inputs.
Proof.
  induction inputs as [|x xs IH] using rev_ind; [reflexivity|].
  unfold feed in *. rewrite fold_left_app. cbn [fold_left]. rewrite IH.
  rewrite pushRatio_last_n by apply last_n_length.
  rewrite !last_n_snoc. rewrite last_n_last_n by lia. reflexivity.
Qed.

Lemma pushRatio_bounded r l :
  (List.length l <= 3)%nat -> (List.length (pushRatio r l) <= 3)%nat.
Proof.
  intros H. rewrite pushRatio_last_n by exact H. apply last_n_length.
Qed.

Lemma detectBlink_ratioList r s : ratioList (detectBlink r s) = ratioList s.
Proof.
  unfold detectBlink.
  destruct (Py.ltb r 35 && (counter s =? 0));
    cbn [counter registerBlink negb Z.eqb ratioList].
  - reflexivity.
  - destruct (counter s =? 0); cbn [negb]; [reflexivity|].
    destruct (counter s + 1 >? 10); reflexivity.
Qed.

Lemma session_after_window_bounded f s :
  window_bounded s -> window_bounded (session_after f s).
Proof.
  unfold window_bounded. intros H. unfold session_after.
  destruct (success f); cbn [negb]; [|exact H].
  assert (H1 : (List.length
                  (ratioList (if minuteDue (currentTime f) s
                              then resetMinute (currentTime f) s else s))
                <= 3)%nat).
  { destruct (minuteDue (currentTime f) s); exact H. }
  destruct (faces f) as [[ratio|e]|]; try exact H1.
  unfold faceUpdate. rewrite detectBlink_ratioList.
  cbn [ratioList set_ratioList]. apply pushRatio_bounded. exact H1.
Qed.

Lemma sum_as_rational l :
  forall a,
    (inject_Z (fold_left Z.add l a)
     == inject_Z a + fold_right (fun x acc => inject_Z x + acc) 0 l)%Q.
Proof.
  induction l as [|x l IH]; intros a; cbn [fold_left fold_right].
  - ring.
  - rewrite IH, inject_Z_plus. ring.
Qed.

Lemma ratioAvg_mean l : (ratioAvg l == mean l)%Q.
Proof.
  unfold ratioAvg, mean, Py.sum, Py.len.
  rewrite sum_as_rational. apply Qdiv_comp; [|reflexivity].
  change (inject_Z 0) with 0%Q. ring.
Qed.

(** C5.  The window is a FIFO of capacity 3: fed any inputs from empty it
    holds exactly the last three of them (the oldest is dropped first), so
    its length never exceeds 3, on every run of the loop as well; the value
    the face branch passes on is the arithmetic mean of the window after the
    push.  Inputs 50, 50, 20 give mean 40; a fourth input 10 gives the window
    50, 20, 10 with mean 80/3, which is 26.67 to two decimals. *)
Theorem ratio_window_fifo :
  (forall inputs,
     feed inputs [] = last_n 3 inputs
     /\ (List.length (feed inputs []) <= 3)%nat)
  /\ (forall env t0 t1 out scr cl tk frames,
        window_bounded
          (globals (snd (run env frames
                           (world_of (initial t0 t1) out scr cl tk)))))
  /\ (forall ratio s,
        exists avg,
          (avg == mean (pushRatio ratio (ratioList s)))%Q
          /\ faceUpdate ratio s
             = detectBlink avg
                 (set_ratioList (pushRatio ratio (ratioList s)) s)
          /\ ratioList (faceUpdate ratio s) = pushRatio ratio (ratioList s))
  /\ feed [50; 50; 20] [] = [50; 50; 20]
  /\ (ratioAvg (feed [50; 50; 20]%Z []) == 40)%Q
  /\ feed [50; 50; 20; 10] [] = [50; 20; 10]
  /\ pushRatio 10 [50; 50; 20] = [50; 20; 10]
  /\ (ratioAvg (feed [50; 50; 20; 10]%Z []) == 80 # 3)%Q
  /\ (Py.round2 (ratioAvg (feed [50; 50; 20; 10]%Z [])) == 2667 # 100)%Q.
Proof.
  split; [|split; [|split]].
  - intros inputs. split; [apply feed_last_n|].
    rewrite feed_last_n. apply last_n_length.
  - intros env t0 t1 out scr cl tk frames.
    apply (run_invariant window_bounded).
    + apply session_after_window_bounded.
    + unfold window_bounded. cbn. lia.
  - intros ratio s. exists (ratioAvg (pushRatio ratio (ratioList s))).
    split; [apply ratioAvg_mean|]. split; [reflexivity|].
    unfold faceUpdate. rewrite detectBlink_ratioList. reflexivity.
  - repeat split; reflexivity.
Qed.

(** ** Live rate estimate *)

Lemma int_floor q : (0 <= q)%Q -> Py.int q = Qfloor q.
Proof.
  destruct q as [n d]. unfold Qle, Py.int, Qfloor. cbn. intros H.
  apply Z.quot_div_nonneg; lia.
Qed.

Lemma int_ceiling q : (q <= 0)%Q -> Py.int q = Qceiling q.
Proof.
  destruct q as [n d]. unfold Qle, Py.int, Qceiling, Qfloor. cbn. intros H.
  rewrite Z.mul_1_r in H.
  rewrite <- (Z.opp_involutive n) at 1. rewrite Z.quot_opp_l by lia.
  f_equal. apply Z.quot_div_nonneg; lia.
Qed.

(** [int] truncates toward zero: the result and the value lie in the same
    unit interval on the side of zero. *)
Lemma int_truncates q :
  ((0 <= q)%Q ->
   (inject_Z (Py.int q) <= q)%Q /\ (q < inject_Z (Py.int q + 1))%Q)
  /\ ((q <= 0)%Q ->
      (inject_Z (Py.int q - 1) < q)%Q /\ (q <= inject_Z (Py.int q))%Q).
Proof.
  split; intros Hq.
  - rewrite (int_floor q Hq). split; [apply Qfloor_le|apply Qlt_floor].
  - rewrite (int_ceiling q Hq). split; [apply Qceiling_lt|apply Qle_ceiling].
Qed.

Lemma float_int_value x n :
  Float.int x = Returned n -> n = Py.int (Float.to_Q x).
Proof.
  destruct x; cbn; intros H; try discriminate; injection H as <-; reflexivity.
Qed.

(** C7 (amended).  On every frame with a face the rate put on the screen is
    an integer: when the session duration is at least 30 seconds it is
    int(blinkCounter / (sessionDuration/60)), and otherwise
    int((blinkCounter / max(sessionDuration/60, 0.5)) * 0.5), both evaluated
    in binary64, where [int] truncates the float toward zero.  When that
    computation raises, nothing is drawn and the exception leaves the
    iteration, the globals already updated. *)
Theorem live_rate_estimate ratio now w :
  let s' := faceUpdate ratio (globals w) in
  let d := (now - sessionStartTime s')%Q in
  let sd := Float.of_Q d in
  let bc := blinkCounter s' in
  (forall rate,
     estimatedBlinksPerMinute bc d = Returned rate ->
     (exists w' status hc,
        faceBranch ratio now w = (Returned tt, w')
        /\ screen w'
           = screen w ++ [FacePanel bc rate status hc
                                    (ratioAvg (ratioList s')) (color s')])
     /\ (exists x,
           estimate_float bc d = Returned x
           /\ rate = Py.int (Float.to_Q x)
           /\ ((0 <= Float.to_Q x)%Q ->
               (inject_Z rate <= Float.to_Q x)%Q
               /\ (Float.to_Q x < inject_Z (rate + 1))%Q)
           /\ ((Float.to_Q x <= 0)%Q ->
               (inject_Z (rate - 1) < Float.to_Q x)%Q
               /\ (Float.to_Q x <= inject_Z rate)%Q)))
  /\ (forall e,
        estimatedBlinksPerMinute bc d = Raised e ->
        exists w',
          faceBranch ratio now w = (Raised e, w')
          /\ screen w' = screen w /\ globals w' = s')
  /\ (Float.leb (Float.of_Q 30) sd = true ->
      estimate_float bc d
      = and_then (Float.div sd (Float.of_Q 60)) (fun minutes =>
        and_then (Float.of_int bc) (fun b =>
        Float.div b minutes)))
  /\ (Float.leb (Float.of_Q 30) sd = false ->
      estimate_float bc d
      = and_then (Float.div sd (Float.of_Q 60)) (fun minutes =>
        and_then (Float.of_int bc) (fun b =>
        and_then (Float.div b (Float.max minutes (Float.of_Q (1 # 2))))
                 (fun q => Returned (Float.mul q (Float.of_Q (1 # 2))))))).
Proof.
  intros s' d sd bc.
  split; [|split; [|split]].
  - intros rate Hrate. split.
    + unfold faceBranch. run_effects. fold s'. fold d. fold bc.
      rewrite Hrate.
      destruct (getBlinkHealthStatus rate) as [st hc]. run_effects.
      do 3 eexists. split; reflexivity.
    + unfold estimatedBlinksPerMinute in Hrate.
      destruct (estimate_float bc d) as [x|e]; cbn [and_then] in Hrate;
        [|discriminate].
      exists x. split; [reflexivity|].
      pose proof (float_int_value x rate Hrate) as Hn.
      split; [exact Hn|]. rewrite Hn. apply int_truncates.
  - intros e He. unfold faceBranch. run_effects. fold s'. fold d. fold bc.
    rewrite He. eexists. split; [reflexivity|]. cbn. auto.
  - intros Hge. unfold estimate_float. fold sd. rewrite Hge. reflexivity.
  - intros Hlt. unfold estimate_float. fold sd. rewrite Hlt. reflexivity.
Qed.

(** C7 as stated fails: one blink in a session of 45 seconds is shown as a
    rate of 1, while the quotient 1 / (45/60) is the float
    1.3333333333333333. *)
Lemma live_rate_is_truncated :
  ~ (forall (bc : Z) (d : Q) (x : Float.t) (rate : Z),
       Float.leb (Float.of_Q 30) (Float.of_Q d) = true ->
       estimate_float bc d = Returned x ->
       estimatedBlinksPerMinute bc d = Returned rate ->
       (inject_Z rate == Float.to_Q x)%Q).
Proof.
  intros H.
  assert (Hge : Float.leb (Float.of_Q 30) (Float.of_Q 45) = true)
    by (vm_compute; reflexivity).
  assert (Hx : estimate_float 1 45
               = Returned (S754_finite false 6004799503160661 (-52)))
    by (vm_compute; reflexivity).
  assert (Hr : estimatedBlinksPerMinute 1 45 = Returned 1)
    by (vm_compute; reflexivity).
  specialize (H 1 45%Q _ 1 Hge Hx Hr).
  vm_compute in H. discriminate H.
Qed.

(** ** The minute bucket *)

Lemma detectBlink_counts r s :
  lastMinuteCheck (detectBlink r s) = lastMinuteCheck s
  /\ ((currentMinuteBlinks (detectBlink r s) = currentMinuteBlinks s
       /\ blinkCounter (detectBlink r s) = blinkCounter s)
      \/ (currentMinuteBlinks (detectBlink r s) = currentMinuteBlinks s + 1
          /\ blinkCounter (detectBlink r s) = blinkCounter s + 1)).
Proof.
  unfold detectBlink.
  destruct (Py.ltb r 35 && (counter s =? 0));
    cbn [counter registerBlink negb Z.eqb].
  - cbn. auto.
  - destruct (counter s =? 0); cbn [negb]; [auto|].
    destruct (counter s + 1 >? 10); cbn; auto.
Qed.

(** C3 (amended).  In every iteration that got a frame, face or no face, the
    minute bucket is reset exactly when now - lastMinuteCheck >= 60.  When it
    is, the status of currentMinuteBlinks is computed and
    [saveBlinkDataToFirebase] is called with that count, that status, the
    total and the session duration; right after the reset
    currentMinuteBlinks is 0 and lastMinuteCheck is now.  At the end of that
    iteration lastMinuteCheck is still now, and currentMinuteBlinks is 0
    unless the face branch of the same iteration registered a blink, in
    which case it is 1. *)
Theorem minute_bucket_reset env now w :
  let s := globals w in
  (minuteDue now s = true <-> (60 <= now - lastMinuteCheck s)%Q)
  /\ (minuteDue now s = true ->
      exists b w1 w2,
        saveBlinkDataToFirebase env (userName env) (currentMinuteBlinks s)
          (fst (getBlinkHealthStatus (currentMinuteBlinks s)))
          (blinkCounter s) (now - sessionStartTime s) w = (Returned b, w1)
        /\ minuteCheck env now w = (Returned tt, w2)
        /\ globals w2 = resetMinute now s
        /\ currentMinuteBlinks (globals w2) = 0
        /\ lastMinuteCheck (globals w2) = now
        /\ cloud w2 = cloud w1
        /\ stdout w2
           = stdout w1
             ++ [MinuteSummary (userName env) (currentMinuteBlinks s)
                   (fst (getBlinkHealthStatus (currentMinuteBlinks s)))])
  /\ (minuteDue now s = false -> minuteCheck env now w = (Returned tt, w))
  /\ (forall f, success f = true -> currentTime f = now ->
      let s' := globals (snd (loop_body env f w)) in
      (minuteDue now s = true ->
       lastMinuteCheck s' = now
       /\ (faces f = None -> currentMinuteBlinks s' = 0)
       /\ (currentMinuteBlinks s' = 0
           \/ (currentMinuteBlinks s' = 1
               /\ blinkCounter s' = blinkCounter s + 1)))
      /\ (minuteDue now s = false ->
          lastMinuteCheck s' = lastMinuteCheck s
          /\ currentMinuteBlinks s
             <= currentMinuteBlinks s' <= currentMinuteBlinks s + 1)).
Proof.
  intros s. split; [apply geb_le|]. split; [|split].
  - intros Hdue. unfold minuteCheck. run_effects. fold s. rewrite Hdue.
    destruct (getBlinkHealthStatus (currentMinuteBlinks s)) as [st hc].
    cbn [fst].
    destruct (save_returns env (userName env) (currentMinuteBlinks s) st
                (blinkCounter s) (now - sessionStartTime s)%Q w)
      as (b & w1 & Hsave & Hg & _).
    rewrite Hsave. run_effects. rewrite Hg. fold s.
    do 3 eexists. split; [reflexivity|]. split; [reflexivity|].
    repeat split.
  - intros Hdue. unfold minuteCheck. run_effects. fold s. rewrite Hdue.
    reflexivity.
  - intros f Hsucc Hnow s'. unfold s'. rewrite loop_body_globals. fold s.
    unfold session_after. rewrite Hsucc, Hnow. cbn [negb].
    split; intros Hdue; rewrite Hdue.
    + destruct (faces f) as [[ratio|e]|].
      * unfold faceUpdate.
        match goal with
        | |- context [detectBlink ?r ?x] =>
            destruct (detectBlink_counts r x) as (Hl & [[Hm Hb]|[Hm Hb]])
        end; rewrite Hl, Hm, Hb; cbn; repeat split; auto; discriminate.
      * cbn. auto.
      * cbn. auto.
    + destruct (faces f) as [[ratio|e]|].
      * unfold faceUpdate.
        match goal with
        | |- context [detectBlink ?r ?x] =>
            destruct (detectBlink_counts r x) as (Hl & [[Hm Hb]|[Hm Hb]])
        end; rewrite Hl, Hm; cbn; split; auto; lia.
      * split; [reflexivity|lia].
      * split; [reflexivity|lia].
Qed.

Lemma minute_bucket_reset_witness :
  minuteDue 60 (initial 0 0) = true
  /\ currentMinuteBlinks
       (globals (snd (minuteCheck offline 60
                        (world_of (initial 0 0) [] [] [] 0)))) = 0.
Proof.
  assert (Hdue : minuteDue 60 (initial 0 0) = true) by reflexivity.
  split; [exact Hdue|].
  destruct (proj1 (proj2 (minute_bucket_reset offline 60
                            (world_of (initial 0 0) [] [] [] 0))) Hdue)
    as (b & w1 & w2 & _ & Hmc & _ & Hz & _).
  rewrite Hmc. exact Hz.
Defined.

(** C3 as stated fails for the state at the end of the iteration: when the
    frame that triggers the reset also shows a closed eye, the blink is
    counted after the reset and the iteration ends with currentMinuteBlinks
    at 1. *)
Lemma reset_frame_may_count_a_blink :
  ~ (forall env f w,
       success f = true ->
       minuteDue (currentTime f) (globals w) = true ->
       currentMinuteBlinks (globals (snd (loop_body env f w))) = 0
       /\ lastMinuteCheck (globals (snd (loop_body env f w))) = currentTime f).
Proof.
  intros H.
  destruct (H offline
              {| success := true; faces := Some (Returned 20);
                 currentTime := 60; quit := None |}
              (world_of (initial 0 0) [] [] [] 0) eq_refl eq_refl)
    as (Hz & _).
  vm_compute in Hz. discriminate Hz.
Qed.

(** ** The integer ratio *)

Lemma sqdist_same p : Eye.sqdist p p = 0.
Proof. destruct p as [x y]. unfold Eye.sqdist. lia. Qed.

Lemma ratio_zero_divisor lenghtVer lenghtHor :
  Float.is_zero lenghtHor = true ->
  Eye.ratio lenghtVer lenghtHor = Raised Py.ZeroDivisionError.
Proof.
  intros Hz. unfold Eye.ratio, Eye.openness, Float.div. rewrite Hz.
  reflexivity.
Qed.

(** C4 (amended).  For every pair of distances the detector returns, the
    per-frame ratio is int(verticalDistance / horizontalDistance * 100): the
    binary64 quotient times 100, truncated toward zero by [int], not rounded
    to the nearest integer; a zero horizontal distance raises
    ZeroDivisionError, as it does when the two corner landmarks coincide.
    The two distances are the floats nearest to the Euclidean distances
    between the eyelid landmarks and between the corner landmarks. *)
Theorem ratio_is_truncated_quotient (lenghtVer lenghtHor : Float.t) :
  (Float.is_zero lenghtHor = true ->
   Eye.ratio lenghtVer lenghtHor = Raised Py.ZeroDivisionError)
  /\ (Float.is_zero lenghtHor = false ->
      Eye.openness lenghtVer lenghtHor
      = Returned (Float.mul (Float.fdiv lenghtVer lenghtHor) (Float.of_Q 100))
      /\ Eye.ratio lenghtVer lenghtHor
         = Float.int (Float.mul (Float.fdiv lenghtVer lenghtHor)
                                (Float.of_Q 100)))
  /\ (forall n,
        Eye.ratio lenghtVer lenghtHor = Returned n ->
        exists x,
          Eye.openness lenghtVer lenghtHor = Returned x
          /\ n = Py.int (Float.to_Q x)
          /\ ((0 <= Float.to_Q x)%Q ->
              (inject_Z n <= Float.to_Q x)%Q
              /\ (Float.to_Q x < inject_Z (n + 1))%Q)
          /\ ((Float.to_Q x <= 0)%Q ->
              (inject_Z (n - 1) < Float.to_Q x)%Q
              /\ (Float.to_Q x <= inject_Z n)%Q))
  /\ (forall face,
        Eye.measure face
        = Eye.ratio
            (Eye.findDistance (Eye.leftUp face) (Eye.leftDown face))
            (Eye.findDistance (Eye.leftLeft face) (Eye.leftRight face)))
  /\ (forall face,
        Eye.leftLeft face = Eye.leftRight face ->
        Eye.measure face = Raised Py.ZeroDivisionError).
Proof.
  split; [apply ratio_zero_divisor|]. split; [|split; [|split]].
  - intros Hz. unfold Eye.ratio, Eye.openness, Float.div. rewrite Hz.
    split; reflexivity.
  - intros n Hn. unfold Eye.ratio in Hn.
    destruct (Eye.openness lenghtVer lenghtHor) as [x|e];
      cbn [and_then] in Hn; [|discriminate].
    exists x. split; [reflexivity|].
    pose proof (float_int_value x n Hn) as Hv.
    split; [exact Hv|]. rewrite Hv. apply int_truncates.
  - intros face. reflexivity.
  - intros face Heq. unfold Eye.measure. apply ratio_zero_divisor.
    unfold Eye.findDistance. rewrite Heq, sqdist_same. reflexivity.
Qed.

Lemma ratio_is_truncated_quotient_witness :
  Float.is_zero (Float.of_Q 16) = false
  /\ Eye.ratio (Float.of_Q 7) (Float.of_Q 16) = Returned 43.
Proof.
  assert (Hz : Float.is_zero (Float.of_Q 16) = false) by reflexivity.
  split; [exact Hz|].
  rewrite (proj2 (proj1 (proj2
    (ratio_is_truncated_quotient (Float.of_Q 7) (Float.of_Q 16))) Hz)).
  vm_compute. reflexivity.
Defined.

(** C4 as stated fails: with eyelids 7 apart and corners 16 apart the
    quotient times 100 is the float 43.75 and the ratio is 43, which is
    further than 1/2 from it, so it is not that float rounded to the nearest
    integer (that is 44). *)
Lemma ratio_is_not_rounded :
  ~ (forall face n x,
       Eye.measure face = Returned n ->
       Eye.openness
         (Eye.findDistance (Eye.leftUp face) (Eye.leftDown face))
         (Eye.findDistance (Eye.leftLeft face) (Eye.leftRight face))
       = Returned x ->
       Eye.is_rounding (Float.to_Q x) n).
Proof.
  intros H.
  assert (Hm : Eye.measure narrow_eye = Returned 43)
    by (vm_compute; reflexivity).
  assert (Hx : Eye.openness
                 (Eye.findDistance (Eye.leftUp narrow_eye)
                                   (Eye.leftDown narrow_eye))
                 (Eye.findDistance (Eye.leftLeft narrow_eye)
                                   (Eye.leftRight narrow_eye))
               = Returned (S754_finite false 6157265115545600 (-47)))
    by (vm_compute; reflexivity).
  specialize (H narrow_eye 43 _ Hm Hx).
  unfold Eye.is_rounding in H. vm_compute in H. apply H. reflexivity.
Qed.

(** ** Concrete runs *)

Example save_offline :
  let r := saveBlinkDataToFirebase offline "Ann" 14 "HEALTHY RATE - Keep it up!"
             14 60 (world_of (initial 0 0) [] [] [] 0) in
  fst r = Returned false
  /\ stdout (snd r) = [NotConnected]
  /\ cloud (snd r) = [].
Proof. repeat split. Qed.

Example save_failing :
  let r := saveBlinkDataToFirebase (online failing_client) "Ann" 14
             "HEALTHY RATE - Keep it up!" 14 60
             (world_of (initial 0 0) [] [] [] 0) in
  fst r = Returned false
  /\ stdout (snd r)
     = [ErrorSaving (Py.StoreError "unavailable"); CheckKeyFile]
  /\ globals (snd r) = initial 0 0.
Proof. repeat split. Qed.

Example save_storing :
  let r := saveBlinkDataToFirebase (online storing_client) "Ann" 14
             "HEALTHY RATE - Keep it up!" 14 60
             (world_of (initial 0 0) [] [] [] 0) in
  fst r = Returned true
  /\ map (fun d => (fst d, bd_blinksPerMinute (snd d), bd_totalBlinks (snd d)))
         (cloud (snd r))
     = [("blink_monitoring"%string, 14, 14)]
  /\ globals (snd r) = initial 0 0.
Proof. repeat split. Qed.

(** The scenario counts one blink and stores one document, at the first
    frame past the 60th second, with rate 1 and total 1. *)
Example scenario_run :
  let w := snd (run (online storing_client) scenario
                  (world_of (initial 0 0) [] [] [] 0)) in
  blinkCounter (globals w) = 1
  /\ currentMinuteBlinks (globals w) = 0
  /\ counter (globals w) = 0
  /\ map (fun d => (bd_blinksPerMinute (snd d), bd_healthStatus (snd d),
                   bd_totalBlinks (snd d)))
         (cloud w)
     = [(1, "TOO LOW - Increase blinking!"%string, 1)]
  /\ List.length (screen w) = 90%nat.
Proof. vm_compute. repeat split. Qed.

(** A zero horizontal distance ends the loop with the error, the globals
    as the minute check left them. *)
Example degenerate_face_raises :
  let face := {| Eye.leftUp := (3, 1); Eye.leftDown := (3, 9);
                 Eye.leftLeft := (5, 5); Eye.leftRight := (5, 5) |} in
  Eye.measure face = Raised Py.ZeroDivisionError
  /\ fst (loop_body offline
            {| success := true;
               faces := Some (Raised Py.ZeroDivisionError);
               currentTime := 1; quit := None |}
            (world_of (initial 0 0) [] [] [] 0))
     = Raised Py.ZeroDivisionError.
Proof. split; reflexivity. Qed.

(** Binary64 decides the integers the program shows: eyelids 29 apart and
    corners 100 apart give the ratio 28, since (29/100)*100 is the float
    just below 29; 23 blinks in 46 seconds are shown as 29 per minute; and a
    duration of 160.5 seconds is stored as 2.67 minutes. *)
Example binary64_decides :
  Eye.measure wide_eye = Returned 28
  /\ estimatedBlinksPerMinute 23 46 = Returned 29
  /\ Float.round2 (Float.fdiv (Float.of_Q (1605 # 10)) (Float.of_Q 60))
     = Float.of_Q (267 # 100).
Proof. vm_compute. repeat split. Qed.

(** * Further properties *)

(** ** What the loop writes to the console *)

Lemma reported_blinks_app a b :
  reported_blinks (a ++ b) = reported_blinks a + reported_blinks b.
Proof.
  unfold reported_blinks. induction a as [|p a IH]; cbn [app fold_right].
  - lia.
  - destruct p; rewrite ?IH; lia.
Qed.

Lemma save_console env u bpm st tot dur w :
  exists b w',
    saveBlinkDataToFirebase env u bpm st tot dur w = (Returned b, w')
    /\ globals w' = globals w
    /\ reported_blinks (stdout w') = reported_blinks (stdout w).
Proof.
  unfold saveBlinkDataToFirebase.
  destruct (db env) as [client|].
  - unfold try_except, now_isoformat, collection_add. run_effects.
    match goal with
    | |- context [add client ?n ?d ?c] =>
        destruct (add client n d c) as [[docId|e] cl]
    end; run_effects; do 2 eexists;
      (split; [reflexivity|]); (split; [reflexivity|]);
      cbn [stdout]; rewrite !reported_blinks_app; cbn; lia.
  - run_effects. do 2 eexists.
    split; [reflexivity|]. split; [reflexivity|].
    cbn [stdout]. rewrite reported_blinks_app. cbn. lia.
Qed.

Lemma minuteCheck_console env now w :
  exists w',
    minuteCheck env now w = (Returned tt, w')
    /\ globals w' =
         (if minuteDue now (globals w) then resetMinute now (globals w)
          else globals w)
    /\ reported_blinks (stdout w') =
         reported_blinks (stdout w)
         + (if minuteDue now (globals w)
            then currentMinuteBlinks (globals w) else 0).
Proof.
  unfold minuteCheck. run_effects.
  destruct (minuteDue now (globals w)).
  - destruct (getBlinkHealthStatus _) as [st hc].
    destruct (save_console env (userName env)
                (currentMinuteBlinks (globals w)) st
                (blinkCounter (globals w))
                (now - sessionStartTime (globals w))%Q w)
      as (b & w1 & -> & Hg & Hr).
    run_effects. rewrite Hg. eexists. split; [reflexivity|].
    split; [reflexivity|].
    cbn [stdout]. rewrite reported_blinks_app, Hr. cbn. lia.
  - eexists. split; [reflexivity|]. split; [reflexivity|]. lia.
Qed.

Lemma quitBranch_console env t w :
  exists w',
    quitBranch env t w = (Returned tt, w')
    /\ globals w' = globals w
    /\ reported_blinks (stdout w') = reported_blinks (stdout w).
Proof.
  unfold quitBranch. run_effects.
  destruct (getBlinkHealthStatus _) as [st hc].
  match goal with
  | |- context [saveBlinkDataToFirebase ?e ?u ?b ?s ?t ?d w] =>
      destruct (save_console e u b s t d w) as (r & w1 & -> & Hg & Hr)
  end.
  run_effects. eexists. split; [reflexivity|]. split; [exact Hg|].
  cbn [stdout]. rewrite reported_blinks_app, Hr. cbn. lia.
Qed.

Lemma loop_body_console env f w :
  reported_blinks (stdout (snd (loop_body env f w)))
  = reported_blinks (stdout w)
    + (if success f && minuteDue (currentTime f) (globals w)
       then currentMinuteBlinks (globals w) else 0).
Proof.
  unfold loop_body.
  destruct (success f); cbn [negb andb].
  - unfold bind at 1.
    destruct (minuteCheck_console env (currentTime f) w)
      as (w1 & -> & _ & Hr1).
    rewrite <- Hr1. clear Hr1.
    unfold bind at 1.
    destruct (faces f) as [[ratio|e]|].
    + unfold bind at 1, lift.
      destruct (faceBranch_run ratio (currentTime f) w1)
        as ([[]|e] & w2 & -> & _ & Ho2); rewrite <- Ho2; [|reflexivity].
      destruct (quit f) as [t|]; [|reflexivity].
      unfold bind.
      destruct (quitBranch_console env t w2) as (w3 & -> & _ & Hr3).
      cbn. exact Hr3.
    + reflexivity.
    + unfold bind at 1, get_globals, imshow.
      destruct (quit f) as [t|]; [|reflexivity].
      unfold bind.
      match goal with
      | |- context [quitBranch env t ?w0] =>
          destruct (quitBranch_console env t w0) as (w3 & -> & _ & Hr3)
      end.
      cbn. exact Hr3.
  - run_effects. rewrite reported_blinks_app. cbn. lia.
Qed.

(** Whatever is true of the world and kept by one iteration is true after
    the loop. *)
Lemma run_world_invariant (P : World -> Prop) env :
  (forall f w, P w -> P (snd (loop_body env f w))) ->
  forall frames w, P w -> P (snd (run env frames w)).
Proof.
  intros Hstep frames.
  induction frames as [|f rest IH]; intros w Hw; [exact Hw|].
  cbn [run]. unfold bind.
  pose proof (Hstep f w Hw) as H1.
  destruct (loop_body env f w) as [[c|e] w1]; cbn [snd] in *.
  - destruct c; [apply IH|]; exact H1.
  - exact H1.
Qed.

(** ** Accounting of blinks across minute buckets *)

Lemma session_after_accounting f s :
  blinkCounter (session_after f s) - currentMinuteBlinks (session_after f s)
  = blinkCounter s - currentMinuteBlinks s
    + (if success f && minuteDue (currentTime f) s
       then currentMinuteBlinks s else 0).
Proof.
  unfold session_after.
  destruct (success f); cbn [negb andb]; [|lia].
  destruct (minuteDue (currentTime f) s);
    destruct (faces f) as [[ratio|e]|]; cbn; try lia;
    unfold faceUpdate;
    match goal with
    | |- context [detectBlink ?r ?x] =>
        destruct (detectBlink_counts r x) as (_ & [[Hm Hb]|[Hm Hb]])
    end; rewrite Hm, Hb; cbn; lia.
Qed.

(** X1.  No blink is lost or counted twice between buckets: over any run of
    the loop, the total minus the current-minute count grows by exactly the
    counts the per-minute summaries print; from the initial state with an
    empty console, the total is the current-minute count plus the sum of the
    printed per-minute counts. *)
Theorem blinks_accounted env frames :
  (forall w,
     let w' := snd (run env frames w) in
     blinkCounter (globals w') - currentMinuteBlinks (globals w')
     - reported_blinks (stdout w')
     = blinkCounter (globals w) - currentMinuteBlinks (globals w)
       - reported_blinks (stdout w))
  /\ (forall t0 t1 scr cl tk,
        let w' := snd (run env frames
                         (world_of (initial t0 t1) [] scr cl tk)) in
        blinkCounter (globals w')
        = currentMinuteBlinks (globals w') + reported_blinks (stdout w')).
Proof.
  assert (H : forall w,
             blinkCounter (globals (snd (run env frames w)))
             - currentMinuteBlinks (globals (snd (run env frames w)))
             - reported_blinks (stdout (snd (run env frames w)))
             = blinkCounter (globals w) - currentMinuteBlinks (globals w)
               - reported_blinks (stdout w)).
  { intros w.
    apply (run_world_invariant
             (fun x => blinkCounter (globals x) - currentMinuteBlinks (globals x)
                       - reported_blinks (stdout x)
                       = blinkCounter (globals w) - currentMinuteBlinks (globals w)
                         - reported_blinks (stdout w))); [|reflexivity].
    intros f x Hx.
    rewrite loop_body_globals, loop_body_console.
    pose proof (session_after_accounting f (globals x)). lia. }
  split; [exact H|].
  intros t0 t1 scr cl tk w'. unfold w'.
  specialize (H (world_of (initial t0 t1) [] scr cl tk)). cbn in H.
  cbn. lia.
Qed.

(** ** What a run never undoes *)

Lemma session_after_forward f s :
  sessionStartTime (session_after f s) = sessionStartTime s
  /\ (lastMinuteCheck (session_after f s) = lastMinuteCheck s
      \/ (lastMinuteCheck s + 60 <= lastMinuteCheck (session_after f s))%Q)
  /\ blinkCounter s <= blinkCounter (session_after f s)
     <= blinkCounter s + 1.
Proof.
  unfold session_after.
  destruct (success f); cbn [negb]; [|split; [reflexivity|split; [auto|lia]]].
  assert (Hdue : minuteDue (currentTime f) s = true ->
                 (lastMinuteCheck s + 60 <= currentTime f)%Q).
  { unfold minuteDue. intros H. apply geb_le in H. Lqa.lra. }
  destruct (minuteDue (currentTime f) s);
    destruct (faces f) as [[ratio|e]|]; cbn;
    try (split; [reflexivity|split; [auto|lia]]);
    unfold faceUpdate;
    match goal with
    | |- context [detectBlink ?r ?x] =>
        destruct (detectBlink_counts r x) as (Hl & [[Hm Hb]|[Hm Hb]]);
        assert (Hst : sessionStartTime (detectBlink r x) = sessionStartTime x)
    end;
    try (unfold detectBlink;
         repeat match goal with
                | |- context [if ?b then _ else _] => destruct b
                end; reflexivity);
    rewrite Hst, Hl, Hb; cbn; (split; [reflexivity|split; [auto|lia]]).
Qed.

(** X2.  Over any run of the loop the session start time is never changed,
    the total blink count never decreases, and the minute-bucket start
    either stays or moves forward by at least 60 seconds in all, whatever
    clock readings the iterations receive. *)
Theorem run_moves_forward env frames w :
  let s := globals w in
  let s' := globals (snd (run env frames w)) in
  sessionStartTime s' = sessionStartTime s
  /\ (lastMinuteCheck s' = lastMinuteCheck s
      \/ (lastMinuteCheck s + 60 <= lastMinuteCheck s')%Q)
  /\ (lastMinuteCheck s <= lastMinuteCheck s')%Q
  /\ blinkCounter s <= blinkCounter s'.
Proof.
  intros s s'.
  assert (H : sessionStartTime s' = sessionStartTime s
              /\ (lastMinuteCheck s' = lastMinuteCheck s
                  \/ (lastMinuteCheck s + 60 <= lastMinuteCheck s')%Q)
              /\ blinkCounter s <= blinkCounter s').
  { unfold s'.
    apply (run_invariant
             (fun x => sessionStartTime x = sessionStartTime s
                       /\ (lastMinuteCheck x = lastMinuteCheck s
                           \/ (lastMinuteCheck s + 60 <= lastMinuteCheck x)%Q)
                       /\ blinkCounter s <= blinkCounter x)).
    - intros f x (Hs & Hl & Hb).
      destruct (session_after_forward f x) as (Hs' & Hl' & Hb').
      split; [congruence|]. split; [|lia].
      destruct Hl' as [Hl'|Hl']; destruct Hl as [Hl|Hl].
      + left. congruence.
      + right. rewrite Hl'. exact Hl.
      + right. rewrite <- Hl. exact Hl'.
      + right. Lqa.lra.
    - split; [reflexivity|]. split; [left; reflexivity|]. apply Z.le_refl. }
  destruct H as (Hs & Hl & Hb).
  split; [exact Hs|]. split; [exact Hl|]. split; [|exact Hb].
  destruct Hl as [->|Hl]; [apply Qle_refl|Lqa.lra].
Qed.

(** ** The colour of the blink-count panel *)

Lemma detectBlink_color r s :
  debounce_in_range s -> color_follows_counter s ->
  color_follows_counter (detectBlink r s).
Proof.
  unfold debounce_in_range, color_follows_counter, detectBlink.
  intros Hr Hc.
  destruct (Py.ltb r 35 && (counter s =? 0));
    cbn [counter color registerBlink negb Z.eqb].
  - reflexivity.
  - destruct (Z.eqb_spec (counter s) 0) as [H0|H0]; cbn [negb].
    + rewrite Hc. apply Z.eqb_eq in H0. rewrite H0. reflexivity.
    + destruct (Z.gtb_spec (counter s + 1) 10);
        cbn [counter color set_counter]; [reflexivity|].
      destruct (Z.eqb_spec (counter s + 1) 0); [lia|exact Hc].
Qed.

Lemma session_after_color f s :
  debounce_in_range s /\ color_follows_counter s ->
  debounce_in_range (session_after f s)
  /\ color_follows_counter (session_after f s).
Proof.
  intros (Hr & Hc).
  split; [apply session_after_counter_range; exact Hr|].
  unfold session_after.
  destruct (success f); cbn [negb]; [|exact Hc].
  destruct (minuteDue (currentTime f) s);
    destruct (faces f) as [[ratio|e]|]; try exact Hc;
    unfold faceUpdate; apply detectBlink_color; assumption.
Qed.

(** X3.  At every frame boundary of a run from the initial state the colour
    used for the blink-count panel and the plot is green (0,200,0) exactly
    when the debounce counter is not 0, and magenta (255,0,255) when it
    is 0. *)
Theorem panel_color_follows_counter env t0 t1 out scr cl tk frames :
  let s := globals (snd (run env frames
                           (world_of (initial t0 t1) out scr cl tk))) in
  (counter s = 0 -> color s = (255, 0, 255))
  /\ (counter s <> 0 -> color s = (0, 200, 0)).
Proof.
  intros s.
  assert (H : debounce_in_range s /\ color_follows_counter s).
  { apply (run_invariant
             (fun x => debounce_in_range x /\ color_follows_counter x)).
    - intros f x. apply session_after_color.
    - split; [unfold debounce_in_range; cbn; lia|reflexivity]. }
  destruct H as (_ & Hc). unfold color_follows_counter in Hc.
  split; intros H0; rewrite Hc.
  - rewrite H0. reflexivity.
  - apply Z.eqb_neq in H0. rewrite H0. reflexivity.
Qed.

(** ** At most one blink per ten face frames *)

Lemma detectBlink_paced r s k :
  paced k s -> paced (k + 1) (detectBlink r s).
Proof.
  intros H.
  destruct (Z.eq_dec (counter s) 0) as [H0|H0].
  - destruct (Py.ltb r 35) eqn:Hb.
    + rewrite (detectBlink_blink r s (proj1 (ltb_lt _ _) Hb) H0).
      unfold paced in *.
      cbn [counter blinkCounter set_counter registerBlink]. right. lia.
    + rewrite (detectBlink_open r s (proj1 (ltb_ge _ _) Hb) H0).
      unfold paced in *. left. lia.
  - rewrite (detectBlink_refractory r s H0). unfold paced in *.
    destruct (Z.gtb_spec (counter s + 1) 10);
      cbn [counter blinkCounter set_counter]; [left|right]; lia.
Qed.

Lemma sessions_after_paced frames :
  forall s k,
    paced k s ->
    paced (k + Z.of_nat (face_count frames)) (sessions_after frames s).
Proof.
  induction frames as [|f rest IH]; intros s k H.
  - cbn. rewrite Z.add_0_r. exact H.
  - unfold face_count. cbn [filter sessions_after fold_left].
    fold (sessions_after rest (session_after f s)).
    pose proof (session_after_debounce f s) as Hf.
    destruct (is_face_frame f).
    + destruct Hf as (r & t & Heq & Hc & Hb).
      cbn [List.length]. fold (face_count rest).
      replace (k + Z.of_nat (S (face_count rest)))
        with (k + 1 + Z.of_nat (face_count rest)) by lia.
      apply IH. rewrite Heq. apply detectBlink_paced.
      unfold paced in *. rewrite Hc, Hb. exact H.
    + fold (face_count rest). apply IH.
      destruct Hf as (Hc & Hb). unfold paced in *. rewrite Hc, Hb. exact H.
Qed.

Lemma face_count_firstn k frames :
  (face_count (firstn k frames) <= face_count frames)%nat.
Proof.
  unfold face_count. revert k.
  induction frames as [|f rest IH]; intros [|k]; cbn; try lia.
  specialize (IH k). destruct (is_face_frame f); cbn; lia.
Qed.

(** X4.  From the initial state, a run of the loop over frames of which [n]
    are face frames registers at most one blink per ten face frames, rounded
    up: ten times the total blink count is at most n + 9.  At a frame
    boundary the debounce counter is never 1. *)
Theorem blinks_rate_limited env t0 t1 out scr cl tk frames :
  let s := globals (snd (run env frames
                           (world_of (initial t0 t1) out scr cl tk))) in
  10 * blinkCounter s <= Z.of_nat (face_count frames) + 9
  /\ counter s <> 1.
Proof.
  intros s. unfold s.
  destruct (run_globals env frames (world_of (initial t0 t1) out scr cl tk))
    as (k & _ & ->).
  cbn [globals world_of].
  assert (H0 : paced 0 (initial t0 t1)) by (left; cbn; lia).
  pose proof (sessions_after_paced (firstn k frames) _ _ H0) as H.
  pose proof (face_count_firstn k frames) as Hk.
  unfold paced in H. lia.
Qed.

(** ** When a face frame registers a blink *)

Lemma pushRatio_nonempty r l : pushRatio r l <> [].
Proof.
  unfold pushRatio.
  destruct l as [|a [|b l]]; [cbn; discriminate..|].
  cbn [app].
  match goal with
  | |- context [if ?c then _ else _] => destruct c
  end; cbn; discriminate.
Qed.

Lemma ltb_ratioAvg l :
  l <> [] -> Py.ltb (ratioAvg l) 35 = (Py.sum l <? 35 * Py.len l).
Proof.
  intros Hl.
  assert (Hn : exists p, Py.len l = Z.pos p).
  { destruct l as [|a l]; [contradiction|].
    unfold Py.len. cbn [List.length]. rewrite Nat2Z.inj_succ.
    exists (Z.to_pos (Z.succ (Z.of_nat (List.length l)))).
    rewrite Z2Pos.id; lia. }
  destruct Hn as (p & Hp).
  unfold ratioAvg. rewrite Hp.
  apply eq_true_iff_eq. rewrite ltb_lt, Z.ltb_lt.
  unfold Qlt, Qdiv, Qmult, Qinv, inject_Z. cbn. lia.
Qed.

Lemma sum_lower_bound l :
  forall a, Forall (fun x => 35 <= x) l ->
            a + 35 * Py.len l <= fold_left Z.add l a.
Proof.
  unfold Py.len.
  induction l as [|x l IH]; intros a H; cbn [fold_left List.length].
  - lia.
  - inversion H as [|? ? Hx Hl]; subst.
    specialize (IH (a + x) Hl). lia.
Qed.

(** X5.  On a face frame the decision is an integer test on the window after
    the new ratio was pushed: with the debounce counter at 0 a blink is
    registered exactly when the sum of the window is below 35 times its
    length, and with the counter away from 0 none is; so a window whose
    entries are all at least 35 never registers a blink. *)
Theorem blink_iff_window_sum ratio s :
  let l := pushRatio ratio (ratioList s) in
  let b' := blinkCounter (faceUpdate ratio s) in
  (counter s = 0 ->
   (b' = blinkCounter s + 1 <-> Py.sum l < 35 * Py.len l)
   /\ (b' = blinkCounter s <-> 35 * Py.len l <= Py.sum l))
  /\ (counter s <> 0 -> b' = blinkCounter s)
  /\ (Forall (fun x => 35 <= x) l -> b' = blinkCounter s).
Proof.
  intros l b'.
  assert (Hlow : Py.sum l < 35 * Py.len l ->
                 counter s = 0 -> b' = blinkCounter s + 1).
  { intros Hs H0. unfold b', faceUpdate. fold l.
    rewrite detectBlink_blink; [reflexivity| |exact H0].
    apply ltb_lt. rewrite ltb_ratioAvg by apply pushRatio_nonempty.
    apply Z.ltb_lt. exact Hs. }
  assert (Hhigh : 35 * Py.len l <= Py.sum l -> b' = blinkCounter s).
  { intros Hs. unfold b', faceUpdate. fold l.
    destruct (Z.eq_dec (counter s) 0) as [H0|H0].
    - rewrite detectBlink_open; [reflexivity| |exact H0].
      apply ltb_ge. rewrite ltb_ratioAvg by apply pushRatio_nonempty.
      apply Z.ltb_ge. exact Hs.
    - rewrite detectBlink_refractory by exact H0.
      cbn [counter set_ratioList].
      destruct (counter s + 1 >? 10); reflexivity. }
  assert (Hbusy : counter s <> 0 -> b' = blinkCounter s).
  { intros H0. unfold b', faceUpdate.
    rewrite detectBlink_refractory by exact H0.
    cbn [counter set_ratioList].
    destruct (counter s + 1 >? 10); reflexivity. }
  split; [|split; [exact Hbusy|]].
  - intros H0. split; split; intros H.
    + destruct (Z.lt_ge_cases (Py.sum l) (35 * Py.len l)) as [Hlt|Hge];
        [exact Hlt|]. specialize (Hhigh Hge). lia.
    + apply Hlow; assumption.
    + destruct (Z.lt_ge_cases (Py.sum l) (35 * Py.len l)) as [Hlt|Hge];
        [|exact Hge]. specialize (Hlow Hlt H0). lia.
    + apply Hhigh. exact H.
  - intros Hall. apply Hhigh.
    pose proof (sum_lower_bound l 0 Hall) as Hs. unfold Py.sum. lia.
Qed.

(** ** An iteration without a face *)

(** X6.  An iteration that gets a frame without a face and no quit key
    continues the loop, draws the no-face panel with the total blink count,
    and leaves the ratio window, the debounce counter, the colour, the total
    and the session start as they were; only the minute check may act. *)
Theorem no_face_iteration env f w :
  success f = true -> faces f = None -> quit f = None ->
  exists w',
    loop_body env f w = (Returned Continue, w')
    /\ screen w' = screen w ++ [NoFacePanel (blinkCounter (globals w))]
    /\ ratioList (globals w') = ratioList (globals w)
    /\ counter (globals w') = counter (globals w)
    /\ color (globals w') = color (globals w)
    /\ blinkCounter (globals w') = blinkCounter (globals w)
    /\ sessionStartTime (globals w') = sessionStartTime (globals w)
    /\ (minuteDue (currentTime f) (globals w) = false ->
        globals w' = globals w).
Proof.
  intros Hs Hf Hq. unfold loop_body. rewrite Hs, Hf, Hq. cbn [negb].
  unfold bind at 1.
  destruct (minuteCheck_run env (currentTime f) w) as (w1 & -> & Hg & Hscr).
  run_effects. eexists. split; [reflexivity|]. cbn [globals screen].
  rewrite Hscr, Hg.
  destruct (minuteDue (currentTime f) (globals w)); cbn;
    repeat split; try reflexivity; discriminate.
Qed.

Lemma no_face_iteration_witness :
  let f := {| success := true; faces := None; currentTime := 5;
              quit := None |} in
  (success f = true /\ faces f = None /\ quit f = None)
  /\ fst (loop_body offline f (world_of (initial 0 0) [] [] [] 0))
     = Returned Continue.
Proof.
  intros f. split; [repeat split|].
  destruct (no_face_iteration offline f (world_of (initial 0 0) [] [] [] 0)
              eq_refl eq_refl eq_refl) as (w' & Hrun & _).
  rewrite Hrun. reflexivity.
Defined.

(** ** How the loop ends *)




(** ** The session clock on the panel *)

Lemma Qfloor_unique x z :
  (inject_Z z <= x)%Q -> (x < inject_Z (z + 1))%Q -> Qfloor x = z.
Proof.
  intros H1 H2.
  apply Qfloor_resp_le in H1. rewrite Qfloor_Z in H1.
  pose proof (Qfloor_le x) as H3.
  assert (H4 : (inject_Z (Qfloor x) < inject_Z (z + 1))%Q)
    by (eapply Qle_lt_trans; eauto).
  rewrite <- Zlt_Qlt in H4. lia.
Qed.


(** X10.  For a non-negative session duration the panel's minutes and
    seconds split the whole seconds elapsed: the seconds are between 0 and
    59, the minutes are not negative, and 60 times the minutes plus the
    seconds is the duration rounded down. *)
Theorem session_clock_splits d :
  (0 <= d)%Q ->
  0 <= sessionMinutes d
  /\ 0 <= sessionSeconds d <= 59
  /\ 60 * sessionMinutes d + sessionSeconds d = Qfloor d.
Proof.
  intros Hd.
  assert (Hq : (0 <= d / 60)%Q)
    by (apply Qle_shift_div_l; [reflexivity|Lqa.lra]).
  unfold sessionMinutes, sessionSeconds, float_mod.
  rewrite (int_floor _ Hq).
  set (m := Qfloor (d / 60)).
  pose proof (Qfloor_le (d / 60)) as Hlo. fold m in Hlo.
  pose proof (Qlt_floor (d / 60)) as Hhi. fold m in Hhi.
  rewrite inject_Z_plus in Hhi. change (inject_Z 1) with 1%Q in Hhi.
  assert (Hd60 : (d / 60 * 60 == d)%Q) by field.
  assert (Hlo' : (inject_Z m * 60 <= d)%Q).
  { rewrite <- Hd60. apply Qmult_le_compat_r; [exact Hlo|discriminate]. }
  assert (Hhi' : (d < (inject_Z m + 1) * 60)%Q).
  { rewrite <- Hd60 at 1. apply Qmult_lt_compat_r; [reflexivity|exact Hhi]. }
  assert (Hm0 : 0 <= m).
  { apply Qfloor_resp_le in Hq. exact Hq. }
  set (r := (d - 60 * inject_Z m)%Q).
  assert (Hr : (r == d - 60 * inject_Z m)%Q) by reflexivity.
  clearbody r.
  assert (Hr0 : (0 <= r)%Q) by Lqa.lra.
  assert (Hr60 : (r < 60)%Q) by Lqa.lra.
  rewrite (int_floor _ Hr0).
  assert (Hs0 : 0 <= Qfloor r).
  { apply Qfloor_resp_le in Hr0. exact Hr0. }
  assert (Hs59 : Qfloor r <= 59).
  { pose proof (Qfloor_le r) as H.
    assert (H' : (inject_Z (Qfloor r) < inject_Z 60)%Q)
      by (eapply Qle_lt_trans; [exact H|exact Hr60]).
    rewrite <- Zlt_Qlt in H'. lia. }
  split; [exact Hm0|]. split; [lia|].
  symmetry. apply Qfloor_unique.
  - rewrite inject_Z_plus, inject_Z_mult. change (inject_Z 60) with 60%Q.
    pose proof (Qfloor_le r) as H. Lqa.lra.
  - rewrite !inject_Z_plus, inject_Z_mult. change (inject_Z 60) with 60%Q.
    change (inject_Z 1) with 1%Q.
    pose proof (Qlt_floor r) as H. rewrite inject_Z_plus in H.
    change (inject_Z 1) with 1%Q in H. Lqa.lra.
Qed.

Lemma session_clock_splits_witness :
  (0 <= 3725 # 10)%Q
  /\ 60 * sessionMinutes (3725 # 10) + sessionSeconds (3725 # 10)
     = Qfloor (3725 # 10).
Proof.
  assert (H : (0 <= 3725 # 10)%Q) by discriminate.
  split; [exact H|].
  exact (proj2 (proj2 (session_clock_splits (3725 # 10) H))).
Defined.

(** ** The user's name *)

Module NameFacts.
Import NameEntry.

Section Strip.

Variable isspace : char -> bool.

Lemma lstrip_head l c rest :
  lstrip isspace l = c :: rest -> isspace c = false.
Proof.
  induction l as [|a l IH]; cbn; [discriminate|].
  destruct (isspace a) eqn:Ha; [exact IH|].
  intros [= <- _]. exact Ha.
Qed.

Lemma lstrip_nil l :
  lstrip isspace l = [] <-> forallb isspace l = true.
Proof.
  induction l as [|a l IH]; cbn; [tauto|].
  destruct (isspace a); cbn; [exact IH|]. split; discriminate.
Qed.

Lemma lstrip_fixed c l :
  isspace c = false -> lstrip isspace (c :: l) = c :: l.
Proof. intros H. cbn. rewrite H. reflexivity. Qed.

Lemma lstrip_idem l : lstrip isspace (lstrip isspace l) = lstrip isspace l.
Proof.
  destruct (lstrip isspace l) as [|c rest] eqn:E; [reflexivity|].
  apply lstrip_fixed. apply (lstrip_head l c rest E).
Qed.

Lemma lstrip_middle x c y :
  isspace c = false ->
  lstrip isspace (x ++ c :: y) = lstrip isspace x ++ c :: y.
Proof.
  intros Hc. induction x as [|a x IH]; cbn.
  - rewrite Hc. reflexivity.
  - destruct (isspace a); [exact IH|reflexivity].
Qed.

Lemma forallb_rev (l : str) :
  forallb isspace (rev l) = forallb isspace l.
Proof.
  induction l as [|a l IH]; [reflexivity|].
  cbn. rewrite forallb_app, IH. cbn. rewrite andb_true_r. apply andb_comm.
Qed.

Lemma rstrip_nil l : rstrip isspace l = [] <-> forallb isspace l = true.
Proof.
  unfold rstrip. rewrite <- forallb_rev, <- lstrip_nil. split.
  - intros H. apply (f_equal (@rev char)) in H.
    rewrite rev_involutive in H. exact H.
  - intros ->. reflexivity.
Qed.

Lemma rstrip_cons c l :
  isspace c = false -> rstrip isspace (c :: l) = c :: rstrip isspace l.
Proof.
  intros Hc. unfold rstrip. cbn [rev].
  rewrite (lstrip_middle (rev l) c [] Hc), rev_app_distr. reflexivity.
Qed.

Lemma rstrip_last l front c :
  rstrip isspace l = front ++ [c] -> isspace c = false.
Proof.
  unfold rstrip. intros H. apply (f_equal (@rev char)) in H.
  rewrite rev_involutive, rev_app_distr in H. cbn in H.
  apply (lstrip_head _ _ _ H).
Qed.

Lemma rstrip_idem l : rstrip isspace (rstrip isspace l) = rstrip isspace l.
Proof. unfold rstrip. rewrite rev_involutive, lstrip_idem. reflexivity. Qed.

Lemma strip_nil l : strip isspace l = [] <-> forallb isspace l = true.
Proof.
  unfold strip. rewrite rstrip_nil. split.
  - intros H. apply lstrip_nil.
    destruct (lstrip isspace l) as [|c rest] eqn:E; [reflexivity|].
    cbn in H. rewrite (lstrip_head l c rest E) in H. discriminate.
  - intros H. apply lstrip_nil in H. rewrite H. reflexivity.
Qed.

Lemma strip_head l c rest : strip isspace l = c :: rest -> isspace c = false.
Proof.
  unfold strip. destruct (lstrip isspace l) as [|a m] eqn:E.
  - cbn. discriminate.
  - pose proof (lstrip_head l a m E) as Ha.
    rewrite (rstrip_cons a m Ha). intros [= <- _]. exact Ha.
Qed.

Lemma strip_last l front c :
  strip isspace l = front ++ [c] -> isspace c = false.
Proof. unfold strip. apply rstrip_last. Qed.

Lemma strip_idem l : strip isspace (strip isspace l) = strip isspace l.
Proof.
  unfold strip at 1. destruct (strip isspace l) as [|c rest] eqn:E;
    [reflexivity|].
  rewrite (lstrip_fixed c rest (strip_head l c rest E)).
  rewrite <- E. unfold strip. apply rstrip_idem.
Qed.

Lemma is_empty_strip l :
  is_empty (strip isspace l) = forallb isspace l.
Proof.
  apply eq_true_iff_eq. rewrite <- strip_nil.
  destruct (strip isspace l); cbn; split; congruence.
Qed.

End Strip.

End NameFacts.

(** X11.  Whatever string of code points the name dialog returns, or when
    it is cancelled, and for any whitespace test that holds of no letter of
    the word Anonymous ([str.isspace] is one), the user name the script goes
    on with is never empty, neither starts nor ends with whitespace, and is
    unchanged by another [strip]; it is Anonymous when the dialog was
    cancelled or the answer was empty or all whitespace, and the stripped
    answer otherwise. *)
Theorem user_name_normalised (isspace : NameEntry.char -> bool)
    (answer : option NameEntry.str) :
  forallb (fun c => negb (isspace c)) NameEntry.Anonymous = true ->
  let name := NameEntry.askUserName isspace answer in
  name <> []
  /\ (forall c rest, name = c :: rest -> isspace c = false)
  /\ (forall front c, name = front ++ [c] -> isspace c = false)
  /\ NameEntry.strip isspace name = name
  /\ name = match answer with
            | None => NameEntry.Anonymous
            | Some u =>
                if forallb isspace u then NameEntry.Anonymous
                else NameEntry.strip isspace u
            end.
Proof.
  intros H name.
  assert (HA : isspace 65%N = false /\ isspace 115%N = false).
  { cbn in H.
    repeat match type of H with
           | (_ && _ = true) =>
               let H1 := fresh "Hc" in
               apply andb_prop in H; destruct H as (H1 & H);
               apply negb_true_iff in H1
           end.
    split; assumption. }
  destruct HA as (HA & Hs).
  assert (Hanon : NameEntry.strip isspace NameEntry.Anonymous
                  = NameEntry.Anonymous).
  { unfold NameEntry.strip, NameEntry.Anonymous.
    rewrite (NameFacts.lstrip_fixed isspace _ _ HA).
    unfold NameEntry.rstrip. cbn [rev app].
    rewrite (NameFacts.lstrip_fixed isspace _ _ Hs). reflexivity. }
  assert (Hname : name = match answer with
                         | None => NameEntry.Anonymous
                         | Some u =>
                             if forallb isspace u then NameEntry.Anonymous
                             else NameEntry.strip isspace u
                         end).
  { unfold name, NameEntry.askUserName.
    destruct answer as [u|]; [|exact Hanon].
    rewrite NameFacts.is_empty_strip.
    destruct u as [|c u]; cbn [NameEntry.is_empty orb].
    - cbn. exact Hanon.
    - destruct (forallb isspace (c :: u)); [exact Hanon|reflexivity]. }
  assert (Hsrc : exists y,
             name = NameEntry.strip isspace y
             /\ forallb isspace y = false).
  { rewrite Hname. destruct answer as [u|].
    - destruct (forallb isspace u) eqn:E.
      + exists NameEntry.Anonymous. split; [symmetry; exact Hanon|].
        cbn. rewrite HA. reflexivity.
      + exists u. split; [reflexivity|exact E].
    - exists NameEntry.Anonymous. split; [symmetry; exact Hanon|].
      cbn. rewrite HA. reflexivity. }
  destruct Hsrc as (y & Hy & Hblank).
  split; [|split; [|split; [|split; [|exact Hname]]]].
  - intros Hempty.
    pose proof (NameFacts.is_empty_strip isspace y) as He.
    rewrite <- Hy, Hempty, Hblank in He. discriminate He.
  - intros c rest Hc. rewrite Hy in Hc.
    apply (NameFacts.strip_head isspace _ _ _ Hc).
  - intros front c Hc. rewrite Hy in Hc.
    apply (NameFacts.strip_last isspace _ _ _ Hc).
  - rewrite Hy. apply NameFacts.strip_idem.
Qed.

(** The answer U+00A0 B o b U+0085 becomes Bob, and an answer made of an
    ideographic space and a space becomes Anonymous. *)
Lemma user_name_normalised_witness :
  forallb (fun c => negb (NameEntry.isspace c)) NameEntry.Anonymous = true
  /\ NameEntry.askUserName NameEntry.isspace
       (Some [160; 66; 111; 98; 133]%N)
     = [66; 111; 98]%N
  /\ NameEntry.askUserName NameEntry.isspace (Some [12288; 32]%N)
     = NameEntry.Anonymous.
Proof.
  assert (H : forallb (fun c => negb (NameEntry.isspace c))
                      NameEntry.Anonymous = true)
    by reflexivity.
  split; [exact H|]. split.
  - rewrite (proj2 (proj2 (proj2 (proj2
      (user_name_normalised NameEntry.isspace
         (Some [160; 66; 111; 98; 133]%N) H))))).
    reflexivity.
  - rewrite (proj2 (proj2 (proj2 (proj2
      (user_name_normalised NameEntry.isspace (Some [12288; 32]%N) H))))).
    reflexivity.
Defined.

(** ** Firebase start-up *)

(** X12.  The start-up block always leaves [db] bound and never raises.  It
    binds a client exactly when an app is registered (it was already, or the
    key file exists and both the certificate and [initialize_app] succeed)
    and [firestore.client] returns it.  With no app and no key file it
    prints the two hints and binds [None] without calling the client.  And
    whenever it binds [None], every later [saveBlinkDataToFirebase] returns
    [False] and leaves the store and the globals untouched. *)
Theorem firebase_startup st :
  (forall c,
     fst (initFirebase st) = Some c <->
     (apps_present st = true
      \/ (key_exists st = true /\ certificate st = Returned tt
          /\ initialize_app st = Returned tt))
     /\ firestore_client st = Returned c)
  /\ (apps_present st = false -> key_exists st = false ->
      initFirebase st = (None, [KeyFileNotFound; PleaseUpdateKey]))
  /\ (fst (initFirebase st) = None ->
      forall env u bpm status tot dur w,
        db env = fst (initFirebase st) ->
        exists w',
          saveBlinkDataToFirebase env u bpm status tot dur w
          = (Returned false, w')
          /\ cloud w' = cloud w /\ globals w' = globals w
          /\ stdout w' = stdout w ++ [NotConnected]).
Proof.
  split; [|split].
  - intros c. unfold initFirebase, initBody.
    destruct st as [apps key cert init client]. cbn.
    destruct apps, key, cert as [[]|e1], init as [[]|e2], client as [c'|e3];
      cbn; split;
      try (intros [= ->]; split; [auto|reflexivity]);
      try discriminate;
      try (intros ([H|(H1 & H2 & H3)] & H4); try discriminate;
           injection H4 as ->; reflexivity).
  - intros Ha Hk. unfold initFirebase, initBody. rewrite Ha, Hk. reflexivity.
  - intros Hnone env u bpm status tot dur w Hdb.
    rewrite Hnone in Hdb. unfold saveBlinkDataToFirebase. rewrite Hdb.
    run_effects. eexists. split; [reflexivity|]. cbn. auto.
Qed.

(** ** The window over a run *)

Lemma session_after_ratioList f s :
  ratioList (session_after f s) = feed (face_ratios [f]) (ratioList s).
Proof.
  unfold session_after, face_ratios. cbn [flat_map]. rewrite app_nil_r.
  destruct (success f); cbn [negb]; [|reflexivity].
  destruct (faces f) as [[ratio|e]|];
    destruct (minuteDue (currentTime f) s); try reflexivity;
    unfold faceUpdate; rewrite detectBlink_ratioList; reflexivity.
Qed.

Lemma sessions_after_ratioList frames :
  forall s,
    ratioList (sessions_after frames s)
    = feed (face_ratios frames) (ratioList s).
Proof.
  induction frames as [|f rest IH]; intros s; [reflexivity|].
  cbn [sessions_after fold_left].
  fold (sessions_after rest (session_after f s)).
  rewrite IH, session_after_ratioList.
  change (f :: rest) with ([f] ++ rest).
  unfold face_ratios at 3. rewrite flat_map_app.
  fold (face_ratios [f]). fold (face_ratios rest).
  unfold feed. rewrite fold_left_app. reflexivity.
Qed.

(** X14.  Over any iterations the ratio window is what pushing the ratios of
    the face frames, in order, makes of it: iterations without a face,
    minute resets and blinks do not touch it.  After a run from the initial
    state it holds the last three ratios measured on the face frames of the
    iterations the run executed. *)
Theorem window_tracks_face_frames :
  (forall frames s,
     ratioList (sessions_after frames s)
     = feed (face_ratios frames) (ratioList s))
  /\ (forall frames t0 t1,
        ratioList (sessions_after frames (initial t0 t1))
        = last_n 3 (face_ratios frames))
  /\ (forall env t0 t1 out scr cl tk frames,
        exists k,
          (k <= List.length frames)%nat
          /\ ratioList (globals (snd (run env frames
                                        (world_of (initial t0 t1) out scr cl tk))))
             = last_n 3 (face_ratios (firstn k frames))).
Proof.
  split; [exact sessions_after_ratioList|]. split.
  - intros frames t0 t1. rewrite sessions_after_ratioList. cbn [ratioList initial].
    apply feed_last_n.
  - intros env t0 t1 out scr cl tk frames.
    destruct (run_globals env frames (world_of (initial t0 t1) out scr cl tk))
      as (k & Hk & Hrun).
    exists k. split; [exact Hk|].
    rewrite Hrun. cbn [globals world_of].
    rewrite sessions_after_ratioList. cbn [ratioList initial].
    apply feed_last_n.
Qed.
